(** * KeyRingService (src/keyring/service.ts): a shallow embedding

    The service is a thin orchestrator: every method threads the custody
    state through calls to its collaborators (the key ring, the chains
    service, the interaction service, the RPC transport) and may throw.
    We embed each method as a computation in a state-and-exception monad
    whose state is the collaborators' state together with the log of the
    interaction-service calls performed so far. The collaborators are an
    interface ([Collaborators]); every theorem is proved for all of its
    implementations. *)

From Stdlib Require Import ZArith Strings.Byte Strings.Ascii.
From stdpp Require Import base option strings pretty list gmap.

#[local] Set Warnings "-register-all".

Open Scope string_scope.

(** ** JavaScript values *)

(** The loosely typed objects handled by the Ethereum paths ([data: object],
    [approveData: any], [msg.value: any]). Numbers are restricted to
    integers; an object is its list of own properties in insertion order. *)
Inductive JSValue : Type :=
| JUndefined
| JNull
| JBool (b : bool)
| JNum (n : Z)
| JStr (s : string)
| JObj (fields : list (string * JSValue)).

Abbreviation JSObject := (list (string * JSValue)).

(** What a method can throw: an error object, or any other value
    ([Thrown]; a promise rejected without a reason is [Thrown JUndefined]). *)
Inductive JSError : Type :=
| Error (message : string)
| OWalletError (module_ : string) (code : Z) (message : string)
| TypeError (message : string)
| Rejected (reason : string)
| Thrown (v : JSValue).

Inductive Result (A : Type) : Type :=
| Ok (a : A)
| Throw (e : JSError).
Arguments Ok {A} a.
Arguments Throw {A} e.

Definition is_ok {A} (r : Result A) : bool :=
  match r with Ok _ => true | Throw _ => false end.

Module JS.

(** ToBoolean. *)
Definition truthy (v : JSValue) : bool :=
  match v with
  | JUndefined | JNull => false
  | JBool b => b
  | JNum n => negb (n =? 0)%Z
  | JStr s => negb (String.eqb s "")
  | JObj _ => true
  end.

Definition nullish (v : JSValue) : bool :=
  match v with
  | JUndefined | JNull => true
  | _ => false
  end.

(** [a || b] *)
Definition or (a b : JSValue) : JSValue := if truthy a then a else b.

(** [a ?? b] *)
Definition coalesce (a b : JSValue) : JSValue := if nullish a then b else a.

(** [o[k]] on an object literal; a missing property reads [undefined]. *)
Fixpoint lookup (k : string) (o : JSObject) : JSValue :=
  match o with
  | [] => JUndefined
  | (k', v) :: o' => if String.eqb k k' then v else lookup k o'
  end.

(** [o[k] = v]: an existing property keeps its position. *)
Fixpoint set (k : string) (v : JSValue) (o : JSObject) : JSObject :=
  match o with
  | [] => [(k, v)]
  | (k', v') :: o' =>
      if String.eqb k k' then (k', v) :: o' else (k', v') :: set k v o'
  end.

(** [{...o, k1: v1, ..., kn: vn}] *)
Definition extend (o : JSObject) (kvs : JSObject) : JSObject :=
  fold_left (fun acc kv => set (fst kv) (snd kv) acc) kvs o.

(** [v.k]: throws on [undefined] and [null], reads [undefined] on the
    other primitives (none of the properties read by the service is a
    built-in of a primitive wrapper). *)
Definition get (v : JSValue) (k : string) : Result JSValue :=
  match v with
  | JUndefined =>
      Throw (TypeError ("Cannot read properties of undefined (reading '" ++ k ++ "')"))
  | JNull =>
      Throw (TypeError ("Cannot read properties of null (reading '" ++ k ++ "')"))
  | JObj o => Ok (lookup k o)
  | _ => Ok JUndefined
  end.

(** [v?.k] *)
Definition get_opt (v : JSValue) (k : string) : JSValue :=
  match v with
  | JObj o => lookup k o
  | _ => JUndefined
  end.

(** [k in o] *)
Definition has (k : string) (o : JSObject) : bool :=
  existsb (fun kv => String.eqb k (fst kv)) o.

(** [v !== s] for a string [s]. *)
Definition strict_ne_str (v : JSValue) (s : string) : bool :=
  match v with
  | JStr s' => negb (String.eqb s' s)
  | _ => true
  end.

End JS.

(** [e.message] for a caught value [e]. *)
Definition messageOf (e : JSError) : Result JSValue :=
  match e with
  | Error message | OWalletError _ _ message | TypeError message
  | Rejected message => Ok (JStr message)
  | Thrown v => JS.get v "message"
  end.

(** [catch (e) { console.log('e', e.message); }] followed by the end of
    the method: the method resolves to [undefined], unless the caught value
    is [undefined] or [null], on which the read of [e.message] throws. *)
Definition caught {A} (e : JSError) : Result (option A) :=
  match messageOf e with
  | Ok _ => Ok None
  | Throw t => Throw t
  end.

(** What a method whose [catch] only logs makes of the outcome of its
    [try] block. *)
Definition resolved {A} (r : Result A) : Result (option A) :=
  match r with
  | Ok a => Ok (Some a)
  | Throw e => caught e
  end.

(** ** Data of the service *)

Inductive KeyRingStatus : Type := NOTLOADED | EMPTY | LOCKED | UNLOCKED.

Inductive Port : Type := APP_PORT | WEBPAGE_PORT.

Record Env : Type := { isInternalMsg : bool }.

Record Key : Type := {
  algo : string;
  pubKey : list byte;
  address : list byte;
  isNanoLedger : bool
}.

Record Currency : Type := {
  coinDenom : string;
  coinMinimalDenom : string;
  coinDecimals : Z
}.

Record ChainInfo : Type := {
  rest : string;
  bech32PrefixAccAddr : string;
  feeCurrencies : option (list Currency)
}.

Record Coin : Type := { denom : string; amount : string }.

Record StdFee : Type := { fee_amount : list Coin; gas : string }.

Record AminoMsg : Type := { type : string; value : JSValue }.

Record StdSignDoc : Type := {
  chain_id : string;
  account_number : string;
  sequence : string;
  fee : StdFee;
  msgs : list AminoMsg;
  memo : string
}.

Record PubKey : Type := { pk_type : string; pk_value : string }.

Record StdSignature : Type := { pub_key : PubKey; signature : string }.

Record AminoSignResponse : Type := {
  amino_signed : StdSignDoc;
  amino_signature : StdSignature
}.

(** [cosmos.tx.v1beta1.SignDoc] *)
Record SignDoc : Type := {
  bodyBytes : list byte;
  authInfoBytes : list byte;
  chainId : string;
  accountNumber : string
}.

Record DirectSignResponse : Type := {
  direct_signed : SignDoc;
  direct_signature : StdSignature
}.

Record OWalletSignOptions : Type := {
  preferNoSetFee : option bool;
  preferNoSetMemo : option bool;
  disableBalanceCheck : option bool;
  isADR36WithString : option bool
}.

Record SignEthereumTypedDataObject : Type := {
  typedMessage : JSValue;
  version : string;
  defaultCoinType : Z
}.

Record ECDSASignature : Type := { sig_v : Z; sig_r : list byte; sig_s : list byte }.

Record MultiKeyStoreInfoElem : Type := {
  ks_type : string;
  ks_meta : list (string * string);
  ks_selected : bool
}.

Abbreviation MultiKeyStoreInfoWithSelected := (list MultiKeyStoreInfoElem).

(** The fourth argument of [interactionService.waitApprove]. *)
Inductive InteractionData : Type :=
| UnlockData
| AminoSignData (msgOrigin chainId : string) (signDoc : StdSignDoc)
    (signer : string) (signOptions : OWalletSignOptions) (isADR36SignDoc : bool)
| DirectSignData (msgOrigin chainId : string) (signDocBytes : list byte)
    (signer : string) (signOptions : OWalletSignOptions)
| EthereumSignData (chainId : string) (data : JSObject).

(** The calls a run makes to the interaction service, and the messages it
    hands to the key ring for signing. *)
Inductive Event : Type :=
| WaitApprove (route kind : string) (data : InteractionData)
| DispatchEvent (port : Port) (kind : string) (data : JSObject)
| KeyRingSign (chainId : string) (coinType : Z) (message : list byte)
| KeyRingSignEthereum (chainId : string) (coinType : Z) (rpc : string)
    (data : JSObject).

Fixpoint countEvents (p : Event -> bool) (t : list Event) : nat :=
  match t with
  | [] => 0
  | ev :: t' => (if p ev then 1 else 0) + countEvents p t'
  end.

Definition isWaitApprove (ev : Event) : bool :=
  match ev with WaitApprove _ _ _ => true | _ => false end.

(** The two "signing request ended" notifications. *)
Definition isSignEnd (ev : Event) : bool :=
  match ev with
  | DispatchEvent APP_PORT kind _ =>
      String.eqb kind "request-sign-end"
      || String.eqb kind "request-sign-ethereum-end"
  | _ => false
  end.

Definition isKeystoreChanged (ev : Event) : bool :=
  match ev with
  | DispatchEvent WEBPAGE_PORT kind _ => String.eqb kind "keystore-changed"
  | _ => false
  end.

Definition isSigning (ev : Event) : bool :=
  match ev with
  | KeyRingSign _ _ _ | KeyRingSignEthereum _ _ _ _ => true
  | _ => false
  end.

(** One completion event when the key ring was asked to sign, none
    otherwise. *)
Definition endsWhenSigning (evs : list Event) : Prop :=
  countEvents isSignEnd evs = (if existsb isSigning evs then 1 else 0).

(** One completion event, whatever happened. *)
Definition endsOnce (evs : list Event) : Prop :=
  countEvents isSignEnd evs = 1.

Arguments endsWhenSigning evs : simpl never.
Arguments endsOnce evs : simpl never.

(** ** The monad of service methods *)

Record World (S : Type) : Type := mkWorld { ext : S; trace : list Event }.
Arguments mkWorld {S} ext trace.
Arguments ext {S} w.
Arguments trace {S} w.

Definition M (S A : Type) : Type := World S -> Result A * World S.

Section Monad.
Context {S : Type}.

Definition ret {A} (a : A) : M S A := fun w => (Ok a, w).

Definition bind {A B} (m : M S A) (k : A -> M S B) : M S B := fun w =>
  match m w with
  | (Ok a, w') => k a w'
  | (Throw e, w') => (Throw e, w')
  end.

Definition throw {A} (e : JSError) : M S A := fun w => (Throw e, w).

(** A collaborator call: it reads and updates the collaborators' state. *)
Definition call {A} (h : S -> Result A * S) : M S A := fun w =>
  let '(r, s') := h (ext w) in (r, mkWorld s' (trace w)).

Definition gets {A} (f : S -> A) : M S A := fun w => (Ok (f (ext w)), w).

Definition lift {A} (r : Result A) : M S A := fun w => (r, w).

Definition emit (ev : Event) : M S unit := fun w =>
  (Ok tt, mkWorld (ext w) (trace w ++ [ev])).

(** [try { body } finally { fin }] *)
Definition try_finally {A} (body : M S A) (fin : M S unit) : M S A := fun w =>
  let '(r, w1) := body w in
  match fin w1 with
  | (Ok _, w2) => (r, w2)
  | (Throw e, w2) => (Throw e, w2)
  end.

(** [try { body } catch (e) { handler }] *)
Definition try_catch {A} (body : M S A) (handler : JSError -> M S A) : M S A :=
  fun w =>
    match body w with
    | (Ok a, w1) => (Ok a, w1)
    | (Throw e, w1) => handler e w1
    end.

End Monad.

(** The events a run of [m] from [w] adds to the log. *)
Definition emitted {S A} (m : M S A) (w : World S) : list Event :=
  drop (length (trace w)) (trace (snd (m w))).

#[global] Instance M_ret {S} : MRet (M S) := fun A => @ret S A.
#[global] Instance M_bind {S} : MBind (M S) := fun A B k m => @bind S A B m k.
#[global] Instance M_fmap {S} : FMap (M S) :=
  fun A B f m => @bind S A B m (fun a => ret (f a)).

(** ** The collaborators *)

Class Collaborators (S : Type) : Type := {
  (* ChainsService *)
  getChainCoinType : string -> S -> Result Z * S;
  getChainInfo : string -> S -> Result ChainInfo * S;
  (* KeyRing (./keyring) *)
  keyRing_status : S -> KeyRingStatus;
  keyRing_restore : S -> Result unit * S;
  keyRing_getKey : string -> Z -> S -> Result Key * S;
  keyRing_sign : Env -> string -> Z -> list byte -> S -> Result (list byte) * S;
  keyRing_signAndBroadcastEthereum :
    string -> Z -> string -> JSObject -> S -> Result string * S;
  keyRing_signEthereumTypedData :
    JSValue -> string -> string -> Z -> S -> Result ECDSASignature * S;
  keyRing_getPublicKey : string -> S -> Result string * S;
  keyRing_signProxyDecryptionData : string -> JSObject -> S -> Result JSValue * S;
  keyRing_signProxyReEncryptionData : string -> JSObject -> S -> Result JSValue * S;
  keyRing_computeKeyStoreCoinType : string -> Z -> S -> Result Z * S;
  keyRing_setKeyStoreCoinType : string -> Z -> S -> Result unit * S;
  keyRing_changeKeyStoreFromMultiKeyStore :
    Z -> S -> Result MultiKeyStoreInfoWithSelected * S;
  (* InteractionService.waitApprove, by the type its caller casts the
     resolved value to *)
  approve_unlock : Env -> S -> Result unit * S;
  approve_amino : Env -> InteractionData -> S -> Result StdSignDoc * S;
  approve_direct : Env -> InteractionData -> S -> Result (list byte) * S;
  approve_ethereum : Env -> InteractionData -> S -> Result JSValue * S;
  (* request (../tx) *)
  request : string -> string -> list JSValue -> S -> Result JSValue * S;
  (* @owallet/cosmos, @cosmjs, Buffer *)
  toBech32 : list byte -> string -> string;
  checkAndValidateADR36AminoSignDoc : StdSignDoc -> string -> Result bool;
  makeADR36AminoSignDoc : string -> list byte -> StdSignDoc;
  lib_verifyADR36AminoSignDoc :
    string -> StdSignDoc -> list byte -> list byte -> Result bool;
  serializeSignDoc : StdSignDoc -> list byte;
  encodeSecp256k1Signature : list byte -> list byte -> Result StdSignature;
  encodeSignDoc : SignDoc -> list byte;
  decodeSignDoc : list byte -> Result SignDoc;
  makeSignBytes : SignDoc -> list byte;
  toBase64 : list byte -> string;
  fromBase64 : string -> list byte
}.

(** ** The service *)

Section Service.
Context {S : Type} `{Collaborators S}.

(** [interactionService.waitApprove(env, route, type, data)], resolved by
    the handler [h] of the matching reply type. *)
Definition waitApprove {A} (route kind : string) (data : InteractionData)
    (h : S -> Result A * S) : M S A :=
  emit (WaitApprove route kind data);; call h.

(** [interactionService.dispatchEvent(port, type, data)]: fire and forget. *)
Definition dispatchEvent (port : Port) (kind : string) (data : JSObject) : M S unit :=
  emit (DispatchEvent port kind data).

Definition noKeyRing : JSError := OWalletError "keyring" 261 "key doesn't exist".

Definition enable (env : Env) : M S KeyRingStatus :=
  st0 ← gets keyRing_status;
  (if st0 is EMPTY then throw noKeyRing else mret tt);;
  st1 ← gets keyRing_status;
  (if st1 is NOTLOADED then call keyRing_restore else mret tt);;
  st2 ← gets keyRing_status;
  if st2 is LOCKED
  then waitApprove "/unlock" "unlock" UnlockData (approve_unlock env);;
       gets keyRing_status
  else gets keyRing_status.

(** The state in which [enable] reaches its [LOCKED] test from [s]: [s]
    itself, or the state left by a successful [restore] when [s] is not
    loaded. *)
Definition loadedFrom (s s1 : S) : Prop :=
  (keyRing_status s = NOTLOADED /\ keyRing_restore s = (Ok tt, s1))
  \/ (keyRing_status s <> NOTLOADED /\ keyRing_status s <> EMPTY /\ s1 = s).

Definition changeKeyStoreFromMultiKeyStore (index : Z)
    : M S MultiKeyStoreInfoWithSelected :=
  try_finally
    (call (keyRing_changeKeyStoreFromMultiKeyStore index))
    (dispatchEvent WEBPAGE_PORT "keystore-changed" []).

(** [this.keyRing.sign(env, chainId, coinType, message)] *)
Definition keyRingSign (env : Env) (chainId : string) (coinType : Z)
    (message : list byte) : M S (list byte) :=
  emit (KeyRingSign chainId coinType message);;
  call (keyRing_sign env chainId coinType message).

(** [signDoc.msgs[0].value.signer] *)
Definition embeddedSigner (signDoc : StdSignDoc) : Result JSValue :=
  match msgs signDoc with
  | [] => Throw (TypeError "Cannot read properties of undefined (reading 'value')")
  | m :: _ => JS.get (value m) "signer"
  end.

Definition dquote : string := String "034"%char EmptyString.

Definition msgSignerMismatched : string := "Signer mismatched".
Definition msgUnmatchedSigner : string := "Unmatched signer in sign doc".
Definition msgUnmatchedSignerNew : string := "Unmatched signer in new sign doc".
Definition msgInvalidOption : string :=
  "Sign doc is not for ADR-36. But, " ++ dquote ++ "isADR36WithString" ++ dquote
  ++ " option is defined".
Definition msgClassificationChanged : string :=
  "Signing request was for ADR-36. But, accidentally, new sign doc is not for ADR-36".

Definition requestSignAmino (env : Env) (msgOrigin chainId signer : string)
    (signDoc : StdSignDoc) (signOptions : OWalletSignOptions)
    : M S AminoSignResponse :=
  coinType ← call (getChainCoinType chainId);
  key ← call (keyRing_getKey chainId coinType);
  info ← call (getChainInfo chainId);
  let bech32Prefix := bech32PrefixAccAddr info in
  let bech32Address := toBech32 (address key) bech32Prefix in
  (if negb (String.eqb signer bech32Address)
   then throw (Error msgSignerMismatched)
   else mret tt);;
  isADR36SignDoc ← lift (checkAndValidateADR36AminoSignDoc signDoc bech32Prefix);
  (if isADR36SignDoc
   then s ← lift (embeddedSigner signDoc);
        if JS.strict_ne_str s signer
        then throw (OWalletError "keyring" 233 msgUnmatchedSigner)
        else mret tt
   else mret tt);;
  (if bool_decide (is_Some (isADR36WithString signOptions)) && negb isADR36SignDoc
   then throw (OWalletError "keyring" 236 msgInvalidOption)
   else mret tt);;
  let data :=
    AminoSignData msgOrigin chainId signDoc signer signOptions isADR36SignDoc in
  newSignDoc ← waitApprove "/sign" "request-sign" data (approve_amino env data);
  (if isADR36SignDoc
   then (* the source passes [signDoc], not [newSignDoc], to both checks *)
        again ← lift (checkAndValidateADR36AminoSignDoc signDoc bech32Prefix);
        if (again : bool)
        then s ← lift (embeddedSigner signDoc);
             if JS.strict_ne_str s signer
             then throw (OWalletError "keyring" 232 msgUnmatchedSignerNew)
             else mret tt
        else throw (OWalletError "keyring" 237 msgClassificationChanged)
   else mret tt);;
  try_finally
    (sig ← keyRingSign env chainId coinType (serializeSignDoc newSignDoc);
     enc ← lift (encodeSecp256k1Signature (pubKey key) sig);
     mret {| amino_signed := newSignDoc; amino_signature := enc |})
    (dispatchEvent APP_PORT "request-sign-end" []).

(** The [catch] of [requestSignDirect] only logs [e.message]: the method
    then resolves to [undefined], here [None]. *)
Definition requestSignDirect (env : Env) (msgOrigin chainId signer : string)
    (signDoc : SignDoc) (signOptions : OWalletSignOptions)
    : M S (option DirectSignResponse) :=
  coinType ← call (getChainCoinType chainId);
  key ← call (keyRing_getKey chainId coinType);
  info ← call (getChainInfo chainId);
  let bech32Address := toBech32 (address key) (bech32PrefixAccAddr info) in
  (if negb (String.eqb signer bech32Address)
   then throw (Error msgSignerMismatched)
   else mret tt);;
  let data :=
    DirectSignData msgOrigin chainId (encodeSignDoc signDoc) signer signOptions in
  newSignDocBytes ← waitApprove "/sign" "request-sign" data (approve_direct env data);
  newSignDoc ← lift (decodeSignDoc newSignDocBytes);
  try_finally
    (try_catch
       (sig ← keyRingSign env chainId coinType (makeSignBytes newSignDoc);
        enc ← lift (encodeSecp256k1Signature (pubKey key) sig);
        mret (Some {| direct_signed := newSignDoc; direct_signature := enc |}))
       (fun e => lift (caught e)))
    (dispatchEvent APP_PORT "request-sign-end" []).

(** [chainInfo.feeCurrencies?.[0].coinDecimals]: the optional chain stops
    only on a missing [feeCurrencies]; an empty array throws. *)
Definition feeDecimals (info : ChainInfo) : Result JSValue :=
  match feeCurrencies info with
  | None => Ok JUndefined
  | Some [] =>
      Throw (TypeError "Cannot read properties of undefined (reading 'coinDecimals')")
  | Some (c :: _) => Ok (JNum (coinDecimals c))
  end.

Definition defaultGasLimit : JSValue := JStr "0x5028".

(** The object presented to the approval step. *)
Definition approvalHints (data : JSObject)
    (estimatedGasPrice estimatedGasLimit decimals : JSValue) : JSObject :=
  JS.extend data
    [("estimatedGasPrice", JS.or (JS.lookup "gasPrice" data) estimatedGasPrice);
     ("estimatedGasLimit", JS.or (JS.lookup "gas" data) estimatedGasLimit);
     ("decimals", decimals)].

(** The destructuring of [approveData] and the object returned:
    [{ ...data, gasPrice, gasLimit, memo, fees }]. *)
Definition mergeApproved (data : JSObject) (approveData : JSValue)
    : Result JSObject :=
  match JS.get approveData "gasPrice", JS.get approveData "memo",
        JS.get approveData "gasLimit", JS.get approveData "fees" with
  | Ok gasPrice, Ok memo, Ok gasLimit, Ok fees =>
      Ok (JS.extend data
            [("gasPrice", JS.coalesce gasPrice (JStr "0x0"));
             ("gasLimit", gasLimit);
             ("memo", JS.coalesce memo (JStr ""));
             ("fees", fees)])
  | Throw e, _, _, _ | _, Throw e, _, _ | _, _, Throw e, _ | _, _, _, Throw e =>
      Throw e
  end.

(** The argument of the [eth_estimateGas] query. *)
Definition estimateGasParams (data : JSObject) : list JSValue :=
  [JObj (JS.extend data [("maxFeePerGas", JUndefined);
                         ("maxPriorityFeePerGas", JUndefined)])].

Definition estimateFeeAndWaitApprove (env : Env) (chainId rpc : string)
    (data : JSObject) : M S JSObject :=
  info ← call (getChainInfo chainId);
  decimals ← lift (feeDecimals info);
  estimatedGasPrice ← call (request rpc "eth_gasPrice" []);
  estimatedGasLimit ←
    try_catch
      (call (request rpc "eth_estimateGas" (estimateGasParams data)))
      (fun _ => mret defaultGasLimit);
  let shown :=
    EthereumSignData chainId
      (approvalHints data estimatedGasPrice estimatedGasLimit decimals) in
  approveData ← waitApprove "/sign" "request-sign-ethereum" shown
                  (approve_ethereum env shown);
  lift (mergeApproved data approveData).

Definition requestSignEthereum (env : Env) (chainId : string) (data : JSObject)
    : M S string :=
  coinType ← call (getChainCoinType chainId);
  info ← call (getChainInfo chainId);
  let rpc := rest info in
  newData ← estimateFeeAndWaitApprove env chainId rpc data;
  try_finally
    (emit (KeyRingSignEthereum chainId coinType rpc newData);;
     call (keyRing_signAndBroadcastEthereum chainId coinType rpc newData))
    (dispatchEvent APP_PORT "request-sign-ethereum-end" []).

Definition requestSignEthereumTypedData (env : Env) (chainId : string)
    (data : SignEthereumTypedDataObject) : M S (option ECDSASignature) :=
  try_finally
    (try_catch
       (Some <$> call (keyRing_signEthereumTypedData (typedMessage data)
                         (version data) chainId (defaultCoinType data)))
       (fun e => lift (caught e)))
    (dispatchEvent APP_PORT "request-sign-end" []).

Definition requestPublicKey (env : Env) (chainId : string) : M S (option string) :=
  try_finally
    (try_catch
       (Some <$> call (keyRing_getPublicKey chainId))
       (fun e => lift (caught e)))
    (dispatchEvent APP_PORT "request-sign-ethereum-end" []).

Definition requestSignProxyDecryptionData (env : Env) (chainId : string)
    (data : JSObject) : M S (option JSValue) :=
  try_finally
    (try_catch
       (info ← call (getChainInfo chainId);
        newData ← estimateFeeAndWaitApprove env chainId (rest info) data;
        Some <$> call (keyRing_signProxyDecryptionData chainId newData))
       (fun e => lift (caught e)))
    (dispatchEvent APP_PORT "request-sign-ethereum-end" []).

Definition requestSignProxyReEncryptionData (env : Env) (chainId : string)
    (data : JSObject) : M S (option JSValue) :=
  try_finally
    (try_catch
       (info ← call (getChainInfo chainId);
        newData ← estimateFeeAndWaitApprove env chainId (rest info) data;
        Some <$> call (keyRing_signProxyReEncryptionData chainId newData))
       (fun e => lift (caught e)))
    (dispatchEvent APP_PORT "request-sign-ethereum-end" []).

Definition pubKeyTypeSecp256k1 : string := "tendermint/PubKeySecp256k1".

Definition verifyADR36AminoSignDoc (chainId signer : string) (data : list byte)
    (sig : StdSignature) : M S bool :=
  coinType ← call (getChainCoinType chainId);
  key ← call (keyRing_getKey chainId coinType);
  info ← call (getChainInfo chainId);
  let bech32Prefix := bech32PrefixAccAddr info in
  let bech32Address := toBech32 (address key) bech32Prefix in
  (if negb (String.eqb signer bech32Address)
   then throw (Error msgSignerMismatched)
   else mret tt);;
  (if negb (String.eqb (pk_type (pub_key sig)) pubKeyTypeSecp256k1)
   then throw (Error ("Unsupported type of pub key: " ++ pk_type (pub_key sig)))
   else mret tt);;
  (if negb (String.eqb (toBase64 (pubKey key)) (pk_value (pub_key sig)))
   then throw (Error "Pub key unmatched")
   else mret tt);;
  let signDoc := makeADR36AminoSignDoc signer data in
  lift (lib_verifyADR36AminoSignDoc bech32Prefix signDoc
          (fromBase64 (pk_value (pub_key sig)))
          (fromBase64 (signature sig))).

Definition setKeyStoreCoinType (chainId : string) (coinType : Z) : M S unit :=
  defaultCoinType ← call (getChainCoinType chainId);
  prevCoinType ← call (keyRing_computeKeyStoreCoinType chainId defaultCoinType);
  call (keyRing_setKeyStoreCoinType chainId coinType);;
  if negb (prevCoinType =? coinType)%Z
  then dispatchEvent WEBPAGE_PORT "keystore-changed" []
  else mret tt.

End Service.

(** ** A sample environment

    A small, executable implementation of the collaborators, used to run
    the service on concrete requests. The user's and the network's
    answers are scripted in the state. *)

Module Sample.

Definition hexDigit (n : N) : ascii :=
  match n with
  | 0 => "0" | 1 => "1" | 2 => "2" | 3 => "3" | 4 => "4" | 5 => "5" | 6 => "6"
  | 7 => "7" | 8 => "8" | 9 => "9" | 10 => "a" | 11 => "b" | 12 => "c"
  | 13 => "d" | 14 => "e" | _ => "f"
  end%N%char.

Fixpoint hex (bs : list byte) : string :=
  match bs with
  | [] => ""
  | b :: bs' =>
      let n := Byte.to_N b in
      String (hexDigit (n / 16)) (String (hexDigit (n mod 16)) (hex bs'))
  end.

Definition bytesOfString (s : string) : list byte := String.list_byte_of_string s.

Definition byteOfZ (z : Z) : list byte :=
  match Byte.of_N (Z.to_N z mod 256) with
  | Some b => [b]
  | None => []
  end.

(** A stand-in for the bech32 encoding: prefix, separator, payload. *)
Definition bech32 (addr : list byte) (prefix : string) : string :=
  prefix ++ "1" ++ hex addr.

(** A stand-in for base64: the hexadecimal text of the bytes. *)
Definition base64 (bs : list byte) : string := hex bs.

Definition hexValue (c : ascii) : N :=
  let n := N_of_ascii c in
  if (48 <=? n)%N && (n <=? 57)%N then n - 48
  else if (97 <=? n)%N && (n <=? 102)%N then n - 87
  else 0.

Fixpoint unbase64 (s : string) : list byte :=
  match s with
  | String hi (String lo s') =>
      match Byte.of_N (hexValue hi * 16 + hexValue lo) with
      | Some b => b :: unbase64 s'
      | None => unbase64 s'
      end
  | _ => []
  end.

Inductive Answer (A : Type) : Type :=
| Rejects
| Returns (a : A).
Arguments Rejects {A}.
Arguments Returns {A} a.

Record State : Type := {
  status : KeyRingStatus;
  keyStores : list string;
  selected : nat;
  coinTypeForChain : gmap string Z;
  (* the script *)
  userUnlocks : bool;
  aminoAnswer : Answer StdSignDoc;
  directAnswer : Answer (list byte);
  ethereumAnswer : Answer JSValue;
  estimateGasFails : bool
}.

Definition withStatus (st : KeyRingStatus) (s : State) : State :=
  {| status := st; keyStores := keyStores s; selected := selected s;
     coinTypeForChain := coinTypeForChain s; userUnlocks := userUnlocks s;
     aminoAnswer := aminoAnswer s; directAnswer := directAnswer s;
     ethereumAnswer := ethereumAnswer s; estimateGasFails := estimateGasFails s |}.

Definition withSelected (i : nat) (s : State) : State :=
  {| status := status s; keyStores := keyStores s; selected := i;
     coinTypeForChain := coinTypeForChain s; userUnlocks := userUnlocks s;
     aminoAnswer := aminoAnswer s; directAnswer := directAnswer s;
     ethereumAnswer := ethereumAnswer s; estimateGasFails := estimateGasFails s |}.

Definition withCoinTypes (m : gmap string Z) (s : State) : State :=
  {| status := status s; keyStores := keyStores s; selected := selected s;
     coinTypeForChain := m; userUnlocks := userUnlocks s;
     aminoAnswer := aminoAnswer s; directAnswer := directAnswer s;
     ethereumAnswer := ethereumAnswer s; estimateGasFails := estimateGasFails s |}.

Definition cosmosInfo : ChainInfo :=
  {| rest := "https://lcd.cosmos.example"; bech32PrefixAccAddr := "cosmos";
     feeCurrencies := Some [{| coinDenom := "ATOM"; coinMinimalDenom := "uatom";
                               coinDecimals := 6 |}] |}.

Definition oraiInfo : ChainInfo :=
  {| rest := "https://lcd.orai.example"; bech32PrefixAccAddr := "orai";
     feeCurrencies := Some [{| coinDenom := "ORAI"; coinMinimalDenom := "orai";
                               coinDecimals := 6 |}] |}.

Definition ethereumInfo : ChainInfo :=
  {| rest := "https://rpc.eth.example"; bech32PrefixAccAddr := "evmos";
     feeCurrencies := Some [{| coinDenom := "ETH"; coinMinimalDenom := "wei";
                               coinDecimals := 18 |}] |}.

Definition chainInfos : list (string * (Z * ChainInfo)) :=
  [("cosmoshub-4", (118%Z, cosmosInfo));
   ("Oraichain", (118%Z, oraiInfo));
   ("0x01", (60%Z, ethereumInfo))].

Fixpoint assoc {A} (k : string) (l : list (string * A)) : option A :=
  match l with
  | [] => None
  | (k', a) :: l' => if String.eqb k k' then Some a else assoc k l'
  end.

Definition noChain {A} : Result A := Throw (Error "There is no chain info").

Definition chainCoinType (chainId : string) (s : State) : Result Z * State :=
  (match assoc chainId chainInfos with
   | Some (c, _) => Ok c
   | None => noChain
   end, s).

Definition chainInfo (chainId : string) (s : State) : Result ChainInfo * State :=
  (match assoc chainId chainInfos with
   | Some (_, i) => Ok i
   | None => noChain
   end, s).

Definition notUnlocked {A} : Result A := Throw (Error "Key ring is not unlocked").

(** Modelled from the spec: the key ring's [restore] (section 4.2),
    [NOT_LOADED] becomes [EMPTY] without entries and [LOCKED] with some. *)
Definition restore (s : State) : Result unit * State :=
  (Ok tt,
   match status s with
   | NOTLOADED => withStatus (if keyStores s is [] then EMPTY else LOCKED) s
   | _ => s
   end).

(** Modelled from the spec: the key derivation engine (section 2), one key
    per coin type for the selected entry, available only while unlocked. *)
Definition keyFor (coinType : Z) : Key :=
  {| algo := "secp256k1";
     pubKey := bytesOfString "pub" ++ byteOfZ coinType;
     address := bytesOfString "addr" ++ byteOfZ coinType;
     isNanoLedger := false |}.

Definition getKey (chainId : string) (coinType : Z) (s : State) : Result Key * State :=
  (match status s with
   | UNLOCKED => Ok (keyFor coinType)
   | _ => notUnlocked
   end, s).

(** Modelled from the spec: signing needs the unlocked session (section 5);
    the signature is a stand-in, the message reversed. *)
Definition sign (env : Env) (chainId : string) (coinType : Z) (message : list byte)
    (s : State) : Result (list byte) * State :=
  (match status s with
   | UNLOCKED => Ok (rev message)
   | _ => notUnlocked
   end, s).

Definition signAndBroadcastEthereum (chainId : string) (coinType : Z)
    (rpc : string) (data : JSObject) (s : State) : Result string * State :=
  (match status s with
   | UNLOCKED => Ok "0xfeed"
   | _ => notUnlocked
   end, s).

Definition signEthereumTypedData (typedMessage : JSValue) (version chainId : string)
    (defaultCoinType : Z) (s : State) : Result ECDSASignature * State :=
  (match status s with
   | UNLOCKED => Ok {| sig_v := 27; sig_r := []; sig_s := [] |}
   | _ => notUnlocked
   end, s).

Definition getPublicKey (chainId : string) (s : State) : Result string * State :=
  (match status s with
   | UNLOCKED => Ok "0x02aa"
   | _ => notUnlocked
   end, s).

Definition signProxyData (chainId : string) (data : JSObject) (s : State)
    : Result JSValue * State :=
  (match status s with
   | UNLOCKED => Ok (JObj data)
   | _ => notUnlocked
   end, s).

(** Modelled from the spec: [coinTypeOverrides] (section 3), the chain's
    override when one is set and the chain's default otherwise. *)
Definition computeKeyStoreCoinType (chainId : string) (defaultCoinType : Z)
    (s : State) : Result Z * State :=
  (Ok (default defaultCoinType (coinTypeForChain s !! chainId)), s).

(** Modelled from the spec: [coinTypeOverrides] (section 3), set once per
    chain and idempotent after the first set. *)
Definition storeCoinType (chainId : string) (coinType : Z) (s : State)
    : Result unit * State :=
  (Ok tt,
   match coinTypeForChain s !! chainId with
   | Some _ => s
   | None => withCoinTypes (<[chainId := coinType]> (coinTypeForChain s)) s
   end).

(** Modelled from the spec: [changeKeyStoreFromMultiKeyStore] (section 4.1),
    it switches the selected index and fails when the index is invalid. *)
Definition changeKeyStore (index : Z) (s : State)
    : Result MultiKeyStoreInfoWithSelected * State :=
  if (0 <=? index)%Z && (index <? Z.of_nat (length (keyStores s)))%Z
  then
    let i := Z.to_nat index in
    (Ok (imap (fun j name => {| ks_type := "mnemonic"; ks_meta := [("name", name)];
                                ks_selected := Nat.eqb j i |}) (keyStores s)),
     withSelected i s)
  else (Throw (Error "Invalid keystore"), s).

Definition rejected {A} : Result A := Throw (Rejected "Request rejected").

Definition answer {A} (a : Answer A) : Result A :=
  match a with
  | Rejects => rejected
  | Returns x => Ok x
  end.

(** The unlock page: the user either unlocks or closes the page. *)
Definition approveUnlock (env : Env) (s : State) : Result unit * State :=
  (Ok tt, if userUnlocks s then withStatus UNLOCKED s else s).

Definition rpcRequest (rpc method : string) (params : list JSValue) (s : State)
    : Result JSValue * State :=
  (if String.eqb method "eth_gasPrice" then Ok (JStr "0x3b9aca00")
   else if String.eqb method "eth_estimateGas"
        then if estimateGasFails s
             then Throw (Rejected "execution reverted")
             else Ok (JStr "0x5208")
        else Throw (Rejected "Method not found"), s).

Definition msgSignData : string := "sign/MsgSignData".

(** Modelled from the spec: the ADR-36 shape (section 4.3), a single
    message of the sign-data type that carries a signer. *)
Definition isADR36 (signDoc : StdSignDoc)
    (bech32Prefix : string) : Result bool :=
  match msgs signDoc with
  | [m] =>
      Ok (String.eqb (type m) msgSignData
          && JS.truthy (JS.get_opt (value m) "signer"))
  | _ => Ok false
  end.

Definition adr36Doc (signer : string) (data : list byte) : StdSignDoc :=
  {| chain_id := ""; account_number := "0"; sequence := "0";
     fee := {| fee_amount := []; gas := "0" |};
     msgs := [{| type := msgSignData;
                 value := JObj [("signer", JStr signer);
                                ("data", JStr (base64 data))] |}];
     memo := "" |}.

(** A stand-in for the canonical JSON of a sign doc. *)
Fixpoint render (v : JSValue) : string :=
  match v with
  | JUndefined => "undefined"
  | JNull => "null"
  | JBool b => if b then "true" else "false"
  | JNum n => pretty n
  | JStr s => "'" ++ s ++ "'"
  | JObj fields =>
      "{"
      ++ (fix go (l : JSObject) : string :=
            match l with
            | [] => ""
            | (k, x) :: l' => k ++ ":" ++ render x ++ ";" ++ go l'
            end) fields
      ++ "}"
  end.

Definition renderMsg (m : AminoMsg) : string := type m ++ "=" ++ render (value m).

Definition renderCoin (c : Coin) : string := amount c ++ denom c.

Definition serialize (d : StdSignDoc) : list byte :=
  bytesOfString
    (chain_id d ++ "|" ++ account_number d ++ "|" ++ sequence d ++ "|"
     ++ String.concat "," (map renderCoin (fee_amount (fee d))) ++ "|"
     ++ gas (fee d) ++ "|" ++ memo d ++ "|"
     ++ String.concat "," (map renderMsg (msgs d))).

Definition signBytes (d : SignDoc) : list byte :=
  bodyBytes d ++ authInfoBytes d ++ bytesOfString (chainId d ++ accountNumber d).

Definition encodeDoc (d : SignDoc) : list byte := signBytes d.

Definition decodeDoc (bs : list byte) : Result SignDoc :=
  Ok {| bodyBytes := bs; authInfoBytes := []; chainId := ""; accountNumber := "" |}.

Definition encodeSignature (pubkey sig : list byte) : Result StdSignature :=
  Ok {| pub_key := {| pk_type := "tendermint/PubKeySecp256k1";
                      pk_value := base64 pubkey |};
        signature := base64 sig |}.

(** The stand-in signature of [sign] is accepted: the reversed message. *)
Definition verify (bech32Prefix : string) (signDoc : StdSignDoc)
    (pubkey sig : list byte) : Result bool :=
  Ok (String.eqb (hex sig) (hex (rev (serialize signDoc)))).

#[export] Instance collaborators : Collaborators State := {|
  getChainCoinType := chainCoinType;
  getChainInfo := chainInfo;
  keyRing_status := status;
  keyRing_restore := restore;
  keyRing_getKey := getKey;
  keyRing_sign := sign;
  keyRing_signAndBroadcastEthereum := signAndBroadcastEthereum;
  keyRing_signEthereumTypedData := signEthereumTypedData;
  keyRing_getPublicKey := getPublicKey;
  keyRing_signProxyDecryptionData := signProxyData;
  keyRing_signProxyReEncryptionData := signProxyData;
  keyRing_computeKeyStoreCoinType := computeKeyStoreCoinType;
  keyRing_setKeyStoreCoinType := storeCoinType;
  keyRing_changeKeyStoreFromMultiKeyStore := changeKeyStore;
  approve_unlock := approveUnlock;
  approve_amino := fun _ _ s => (answer (aminoAnswer s), s);
  approve_direct := fun _ _ s => (answer (directAnswer s), s);
  approve_ethereum := fun _ _ s => (answer (ethereumAnswer s), s);
  request := rpcRequest;
  toBech32 := bech32;
  checkAndValidateADR36AminoSignDoc := isADR36;
  makeADR36AminoSignDoc := adr36Doc;
  lib_verifyADR36AminoSignDoc := verify;
  serializeSignDoc := serialize;
  encodeSecp256k1Signature := encodeSignature;
  encodeSignDoc := encodeDoc;
  decodeSignDoc := decodeDoc;
  makeSignBytes := signBytes;
  toBase64 := base64;
  fromBase64 := unbase64
|}.

(** *** Sample requests *)

Definition env0 : Env := {| isInternalMsg := false |}.

(** An unlocked key ring with two entries; every approval is rejected. *)
Definition unlocked : State :=
  {| status := UNLOCKED; keyStores := ["main"; "second"]; selected := 0;
     coinTypeForChain := ∅; userUnlocks := false;
     aminoAnswer := Rejects; directAnswer := Rejects; ethereumAnswer := Rejects;
     estimateGasFails := false |}.

Definition withAmino (a : Answer StdSignDoc) (s : State) : State :=
  {| status := status s; keyStores := keyStores s; selected := selected s;
     coinTypeForChain := coinTypeForChain s; userUnlocks := userUnlocks s;
     aminoAnswer := a; directAnswer := directAnswer s;
     ethereumAnswer := ethereumAnswer s; estimateGasFails := estimateGasFails s |}.

Definition withDirect (a : Answer (list byte)) (s : State) : State :=
  {| status := status s; keyStores := keyStores s; selected := selected s;
     coinTypeForChain := coinTypeForChain s; userUnlocks := userUnlocks s;
     aminoAnswer := aminoAnswer s; directAnswer := a;
     ethereumAnswer := ethereumAnswer s; estimateGasFails := estimateGasFails s |}.

Definition withEthereum (a : Answer JSValue) (fails : bool) (s : State) : State :=
  {| status := status s; keyStores := keyStores s; selected := selected s;
     coinTypeForChain := coinTypeForChain s; userUnlocks := userUnlocks s;
     aminoAnswer := aminoAnswer s; directAnswer := directAnswer s;
     ethereumAnswer := a; estimateGasFails := fails |}.

(** The address of the sample key on a Cosmos chain (coin type 118). *)
Definition me : string := "cosmos16164647276".

Definition stranger : string := "cosmos1abc".

Definition attacker : string := "cosmos1attacker".

(** An off-chain message signed by [me]. *)
Definition helloDoc : StdSignDoc := adr36Doc me (bytesOfString "hello").

(** The same envelope around another message. *)
Definition hulloDoc : StdSignDoc := adr36Doc me (bytesOfString "hullo").

(** An off-chain message whose embedded signer is somebody else. *)
Definition forgedDoc : StdSignDoc := adr36Doc attacker (bytesOfString "hello").

(** An ordinary transaction: a transfer to [attacker]. *)
Definition sendDoc : StdSignDoc :=
  {| chain_id := "cosmoshub-4"; account_number := "7"; sequence := "3";
     fee := {| fee_amount := [{| denom := "uatom"; amount := "5000" |}];
               gas := "200000" |};
     msgs := [{| type := "cosmos-sdk/MsgSend";
                 value := JObj [("from_address", JStr me);
                                ("to_address", JStr attacker);
                                ("amount", JStr "1000000uatom")] |}];
     memo := "" |}.

Definition noOptions : OWalletSignOptions :=
  {| preferNoSetFee := None; preferNoSetMemo := None;
     disableBalanceCheck := None; isADR36WithString := None |}.

Definition directDoc : SignDoc :=
  {| bodyBytes := bytesOfString "body"; authInfoBytes := bytesOfString "auth";
     chainId := "cosmoshub-4"; accountNumber := "7" |}.

(** A draft Ethereum transaction without gas fields. *)
Definition draftTx : JSObject :=
  [("from", JStr "0xaaaa"); ("to", JStr "0xbbbb"); ("value", JStr "0x1")].

(** The same draft with gas fields that are present and falsy. *)
Definition zeroGasTx : JSObject :=
  [("from", JStr "0xaaaa"); ("to", JStr "0xbbbb"); ("value", JStr "0x1");
   ("gas", JNum 0); ("gasPrice", JStr "")].

(** The same draft with the caller's own gas fields. *)
Definition pricedTx : JSObject :=
  [("from", JStr "0xaaaa"); ("to", JStr "0xbbbb"); ("value", JStr "0x1");
   ("gas", JStr "0x7530"); ("gasPrice", JStr "0x4a817c800")].

(** The encoded signature of the sample key over a sign doc. *)
Definition signatureOf (d : StdSignDoc) : StdSignature :=
  {| pub_key := {| pk_type := "tendermint/PubKeySecp256k1";
                   pk_value := base64 (pubKey (keyFor 118)) |};
     signature := base64 (rev (serialize d)) |}.

Definition helloSignature : StdSignature := signatureOf helloDoc.

(** The same signature under a public key of another type. *)
Definition ed25519Signature : StdSignature :=
  {| pub_key := {| pk_type := "tendermint/PubKeyEd25519";
                   pk_value := base64 (pubKey (keyFor 118)) |};
     signature := base64 (rev (serialize helloDoc)) |}.

(** The same signature under somebody else's public key. *)
Definition otherKeySignature : StdSignature :=
  {| pub_key := {| pk_type := "tendermint/PubKeySecp256k1";
                   pk_value := base64 (pubKey (keyFor 60)) |};
     signature := base64 (rev (serialize helloDoc)) |}.

Definition dapp : string := "https://dapp.example".

Definition cosmoshub : string := "cosmoshub-4".

Definition ethereum : string := "0x01".

Definition ethereumRpc : string := "https://rpc.eth.example".

Definition start (s : State) : World State := mkWorld s [].

Definition hello : list byte := bytesOfString "hello".

(** The user approves with an empty response; the gas estimate fails. *)
Definition estimateFails : World State :=
  start (withEthereum (Returns (JObj [])) true unlocked).

(** The user approves with an empty response; the gas estimate answers. *)
Definition estimateAnswers : World State :=
  start (withEthereum (Returns (JObj [])) false unlocked).

(** The user approves and sets a gas limit only. *)
Definition limitOnly : World State :=
  start (withEthereum (Returns (JObj [("gasLimit", JStr "0x7530")])) false unlocked).

End Sample.

(** ** The key-store methods of the service *)

(** [BIP44] of @owallet/types: the coin type of a derivation path. *)
Record BIP44 : Type := { bip44_coinType : Z }.

(** What [keyRing.deleteKeyRing] resolves to. *)
Record DeleteKeyRingResult : Type := {
  del_multiKeyStoreInfo : MultiKeyStoreInfoWithSelected;
  del_keyStoreChanged : bool
}.

(** What [deleteKeyRing] of the service resolves to. *)
Record DeleteKeyRingResponse : Type := {
  resp_multiKeyStoreInfo : MultiKeyStoreInfoWithSelected;
  resp_status : KeyRingStatus
}.

(** An element of the array built by [getKeyStoreBIP44Selectables]. *)
Record Selectable : Type := { sel_path : BIP44; sel_bech32Address : string }.

(** The key-ring operations used by the key-store methods. *)
Class KeyStoreCollaborators (S : Type) : Type := {
  keyRing_deleteKeyRing : Z -> string -> S -> Result DeleteKeyRingResult * S;
  keyRing_getKeyFromCoinType : Z -> S -> Result Key * S;
  keyRing_isKeyStoreCoinTypeSet : string -> S -> Result bool * S
}.

Section KeyStoreService.
Context {S : Type} `{Collaborators S} `{KeyStoreCollaborators S}.

(** [try { body } finally { fin }] where [fin] reads a local variable that
    [body] assigns: [fin] is given the outcome of [body]. *)
Definition try_finally_on {A} (body : M S A) (fin : Result A -> M S unit) : M S A :=
  fun w =>
    let '(r, w1) := body w in
    match fin r w1 with
    | (Ok _, w2) => (r, w2)
    | (Throw e, w2) => (Throw e, w2)
    end.

(** The local [keyStoreChanged] of [deleteKeyRing] when its [finally]
    runs: [false] unless the key ring's call has resolved. *)
Definition keyStoreChangedAfter (r : Result (DeleteKeyRingResult * KeyRingStatus))
    : bool :=
  match r with
  | Ok (result, _) => del_keyStoreChanged result
  | Throw _ => false
  end.

Definition deleteKeyRing (index : Z) (password : string)
    : M S DeleteKeyRingResponse :=
  (fun '(result, st) =>
     {| resp_multiKeyStoreInfo := del_multiKeyStoreInfo result;
        resp_status := st |})
  <$> try_finally_on
        (result ← call (keyRing_deleteKeyRing index password);
         st ← gets keyRing_status;
         mret (result, st))
        (fun r =>
           if keyStoreChangedAfter r
           then dispatchEvent WEBPAGE_PORT "keystore-changed" []
           else mret tt).

(** The [for] loop of [getKeyStoreBIP44Selectables]; [result] is the array
    built so far. *)
Fixpoint selectablesLoop (bech32Prefix : string) (paths : list BIP44)
    (result : list Selectable) : M S (list Selectable) :=
  match paths with
  | [] => mret result
  | path :: paths' =>
      key ← call (keyRing_getKeyFromCoinType (bip44_coinType path));
      selectablesLoop bech32Prefix paths'
        (result ++ [{| sel_path := path;
                       sel_bech32Address := toBech32 (address key) bech32Prefix |}])
  end.

Definition getKeyStoreBIP44Selectables (chainId : string) (paths : list BIP44)
    : M S (list Selectable) :=
  isSet ← call (keyRing_isKeyStoreCoinTypeSet chainId);
  if (isSet : bool)
  then mret []
  else chainInfo ← call (getChainInfo chainId);
       selectablesLoop (bech32PrefixAccAddr chainInfo) paths [].

End KeyStoreService.

(** The logs a signing request can leave: nothing (the call failed before
    the approval), the approval alone (the call failed on it or right after
    it), or the approval, one request to the key ring and the completion
    event. [ok] tells whether the call resolved. *)
Definition signingProtocol (kind endKind : string) (ok : bool) (evs : list Event)
    : Prop :=
  (evs = [] /\ ok = false)
  \/ (exists d, evs = [WaitApprove "/sign" kind d] /\ ok = false)
  \/ (exists d sg,
        evs = [WaitApprove "/sign" kind d; sg; DispatchEvent APP_PORT endKind []]
        /\ isSigning sg = true).

Arguments signingProtocol kind endKind ok evs : simpl never.

(** *** The sample key store *)

Module SampleKeyStore.
Import Sample.

Definition password : string := "p@ss".

Definition withKeyStores (l : list string) (i : nat) (st : KeyRingStatus)
    (s : State) : State :=
  {| status := st; keyStores := l; selected := i;
     coinTypeForChain := coinTypeForChain s; userUnlocks := userUnlocks s;
     aminoAnswer := aminoAnswer s; directAnswer := directAnswer s;
     ethereumAnswer := ethereumAnswer s; estimateGasFails := estimateGasFails s |}.

Definition infoOf (l : list string) (i : nat) : MultiKeyStoreInfoWithSelected :=
  imap (fun j name => {| ks_type := "mnemonic"; ks_meta := [("name", name)];
                         ks_selected := Nat.eqb j i |}) l.

(** Modelled from the spec: [deleteKeyRing] (section 4.1), it needs the
    password and a valid index, removes the entry, selects index 0 again
    when the removed entry was the selected one, and reports whether the
    active key store changed. *)
Definition deleteEntry (index : Z) (pw : string) (s : State)
    : Result DeleteKeyRingResult * State :=
  if negb (String.eqb pw password) then (Throw (Error "Invalid password"), s)
  else if negb ((0 <=? index)%Z && (index <? Z.of_nat (length (keyStores s)))%Z)
  then (Throw (Error "Empty key store"), s)
  else
    let i := Z.to_nat index in
    let l := (take i (keyStores s) ++ drop (S i) (keyStores s))%list in
    let changed := Nat.eqb i (selected s) in
    let sel :=
      if changed then 0
      else if Nat.ltb i (selected s) then selected s - 1 else selected s in
    let st := if l is [] then EMPTY else status s in
    (Ok {| del_multiKeyStoreInfo := infoOf l sel; del_keyStoreChanged := changed |},
     withKeyStores l sel st s).

(** Modelled from the spec: the key derivation engine (section 2). *)
Definition keyFromCoinType (coinType : Z) (s : State) : Result Key * State :=
  (match status s with
   | UNLOCKED => Ok (keyFor coinType)
   | _ => notUnlocked
   end, s).

(** Modelled from the spec: [coinTypeOverrides] (section 3), whether the
    chain has an override. *)
Definition coinTypeIsSet (chainId : string) (s : State) : Result bool * State :=
  (Ok (bool_decide (is_Some (coinTypeForChain s !! chainId))), s).

#[export] Instance keyStoreCollaborators : KeyStoreCollaborators State := {|
  keyRing_deleteKeyRing := deleteEntry;
  keyRing_getKeyFromCoinType := keyFromCoinType;
  keyRing_isKeyStoreCoinTypeSet := coinTypeIsSet
|}.

(** The candidate paths offered for a Cosmos chain. *)
Definition candidates : list BIP44 :=
  [{| bip44_coinType := 118 |}; {| bip44_coinType := 60 |};
   {| bip44_coinType := 529 |}].

(** The sample key ring once the coin type of the hub is chosen. *)
Definition hubChosen : State := withCoinTypes (<[cosmoshub := 60%Z]> ∅) unlocked.

(** The user answers the Ethereum approval with [null]. *)
Definition answersNull : World State :=
  start (withEthereum (Returns JNull) false unlocked).

(** A chain whose list of fee currencies is empty. *)
Definition noFeeCurrency : ChainInfo :=
  {| rest := "https://rpc.bare.example"; bech32PrefixAccAddr := "bare";
     feeCurrencies := Some [] |}.

(** A sign doc for a transfer, as the user may return it with a memo. *)
Definition sendDocWithMemo : StdSignDoc :=
  {| chain_id := chain_id sendDoc; account_number := account_number sendDoc;
     sequence := sequence sendDoc; fee := fee sendDoc; msgs := msgs sendDoc;
     memo := "thanks" |}.

Definition stringOption : OWalletSignOptions :=
  {| preferNoSetFee := None; preferNoSetMemo := None;
     disableBalanceCheck := None; isADR36WithString := Some true |}.

Definition bare : string := "bare-1".

Definition bareRpc : string := "https://rpc.bare.example".

(** Bytes that the strict decoder refuses. *)
Definition garbled : list byte := [Byte.xff].

(** Bytes on which the strict key ring rejects without a reason. *)
Definition zeroByte : list byte := [Byte.x00].

Definition zeroDirectDoc : SignDoc :=
  {| bodyBytes := zeroByte; authInfoBytes := []; chainId := "";
     accountNumber := "" |}.

Definition typedRequest : SignEthereumTypedDataObject :=
  {| typedMessage := JObj [("primaryType", JStr "Mail")]; version := "V4";
     defaultCoinType := 60 |}.

Definition readOfUndefined : JSError :=
  TypeError "Cannot read properties of undefined (reading 'message')".

Definition readOfNull : JSError :=
  TypeError "Cannot read properties of null (reading 'message')".

(** The sample key ring, locked. *)
Definition lockedRing : State := withStatus LOCKED unlocked.

(** The encoded signature of the sample key over a direct sign doc. *)
Definition directSignatureOf (d : SignDoc) : StdSignature :=
  {| pub_key := {| pk_type := "tendermint/PubKeySecp256k1";
                   pk_value := base64 (pubKey (keyFor 118)) |};
     signature := base64 (rev (signBytes d)) |}.

(** What the sample decoder makes of the bytes of [directDoc]. *)
Definition decodedDirectDoc : SignDoc :=
  {| bodyBytes := encodeDoc directDoc; authInfoBytes := []; chainId := "";
     accountNumber := "" |}.

Definition emptyDirectDoc : SignDoc :=
  {| bodyBytes := []; authInfoBytes := []; chainId := ""; accountNumber := "" |}.

Definition downRpc : string := "https://rpc.down.example".

(** A variant of the sample environment: one more chain, without fee
    currencies; an RPC endpoint that is down; and a key ring that refuses
    to change a coin type once it is set, that rejects without a reason
    when asked to sign the zero byte or, while locked, typed data, and
    whose re-encryption rejects with [null]. *)
Definition strict : Collaborators State := {|
  getChainCoinType := fun c s =>
    if String.eqb c bare then (Ok 118%Z, s) else chainCoinType c s;
  getChainInfo := fun c s =>
    if String.eqb c bare then (Ok noFeeCurrency, s) else chainInfo c s;
  keyRing_status := status;
  keyRing_restore := restore;
  keyRing_getKey := Sample.getKey;
  keyRing_sign := fun env c t message s =>
    if message is [] then (Throw (Error "Nothing to sign"), s)
    else if String.eqb (hex message) "00" then (Throw (Thrown JUndefined), s)
    else sign env c t message s;
  keyRing_signAndBroadcastEthereum := signAndBroadcastEthereum;
  keyRing_signEthereumTypedData := fun m v c t s =>
    match status s with
    | UNLOCKED => signEthereumTypedData m v c t s
    | _ => (Throw (Thrown JUndefined), s)
    end;
  keyRing_getPublicKey := getPublicKey;
  keyRing_signProxyDecryptionData := signProxyData;
  keyRing_signProxyReEncryptionData := fun c d s => (Throw (Thrown JNull), s);
  keyRing_computeKeyStoreCoinType := computeKeyStoreCoinType;
  keyRing_setKeyStoreCoinType := fun c t s =>
    match coinTypeForChain s !! c with
    | Some _ => (Throw (Error "Coin type already set"), s)
    | None => storeCoinType c t s
    end;
  keyRing_changeKeyStoreFromMultiKeyStore := changeKeyStore;
  approve_unlock := approveUnlock;
  approve_amino := fun _ _ s => (answer (aminoAnswer s), s);
  approve_direct := fun _ _ s => (answer (directAnswer s), s);
  approve_ethereum := fun _ _ s => (answer (ethereumAnswer s), s);
  request := fun rpc method params s =>
    if String.eqb rpc downRpc then (Throw (Rejected "Network request failed"), s)
    else rpcRequest rpc method params s;
  toBech32 := bech32;
  checkAndValidateADR36AminoSignDoc := isADR36;
  makeADR36AminoSignDoc := adr36Doc;
  lib_verifyADR36AminoSignDoc := verify;
  serializeSignDoc := serialize;
  encodeSecp256k1Signature := encodeSignature;
  encodeSignDoc := encodeDoc;
  decodeSignDoc := fun bs =>
    if String.eqb (hex bs) "ff" then Throw (Error "invalid wire type")
    else decodeDoc bs;
  makeSignBytes := signBytes;
  toBase64 := base64;
  fromBase64 := unbase64
|}.

End SampleKeyStore.

(** ** Running a method: basic facts *)

Lemma countEvents_app p t1 t2 :
  countEvents p (t1 ++ t2) = countEvents p t1 + countEvents p t2.
Proof.
  induction t1 as [|ev t1 IH]; simpl; [reflexivity|].
  rewrite IH. destruct (p ev); lia.
Qed.

Lemma emitted_eq {S A} (m : M S A) (w : World S) r s' evs :
  m w = (r, mkWorld s' (trace w ++ evs)) -> emitted m w = evs.
Proof.
  intros Hrun. unfold emitted. rewrite Hrun. simpl. apply drop_app_length.
Qed.

Lemma eqb_string_false (a b : string) : a <> b -> String.eqb a b = false.
Proof. apply String.eqb_neq. Qed.

Ltac unfold_run :=
  unfold waitApprove, dispatchEvent, keyRingSign in *;
  unfold mbind, M_bind, mret, M_ret, fmap, M_fmap, bind, ret, throw, call, gets,
    lift, emit, try_finally, try_catch in *.

(** Replay the collaborator answers recorded in the hypotheses. *)
Ltac replay :=
  repeat (simpl in *;
          match goal with
          | H : ?h = _ |- context [?h] => rewrite H
          end);
  simpl in *.

Ltac run := unfold_run; replay.

Section Gate.
Context {S : Type} `{Collaborators S}.

(** C10. Every call to [changeKeyStoreFromMultiKeyStore] dispatches one
    keystore-changed notification to the webpage audience, whether the key
    ring switches the selection or throws; the outcome is the key ring's. *)
Theorem changeKeyStore_always_notifies (index : Z) (w : World S) :
  emitted (changeKeyStoreFromMultiKeyStore index) w
    = [DispatchEvent WEBPAGE_PORT "keystore-changed" []]
  /\ fst (changeKeyStoreFromMultiKeyStore index w)
     = fst (keyRing_changeKeyStoreFromMultiKeyStore index (ext w))
  /\ ext (snd (changeKeyStoreFromMultiKeyStore index w))
     = snd (keyRing_changeKeyStoreFromMultiKeyStore index (ext w)).
Proof.
  unfold emitted, changeKeyStoreFromMultiKeyStore. unfold_run.
  destruct (keyRing_changeKeyStoreFromMultiKeyStore index (ext w)) as [r s'].
  simpl. rewrite drop_app_length. auto.
Qed.

(** C5. [enable] is the gate before privileged operations: [EMPTY] fails
    with the no-key-ring error; [NOTLOADED] restores first (a failing
    restore fails the call); when the status is then [LOCKED] the call
    suspends on the unlock interaction and, once it resolves, returns the
    status of that moment, whatever it is; otherwise it returns the status
    at once, without any suspension. *)
Theorem enable_gate (env : Env) (w : World S) :
  (keyRing_status (ext w) = EMPTY ->
     enable env w = (Throw noKeyRing, w))
  /\ (keyRing_status (ext w) = NOTLOADED ->
      forall e s1, keyRing_restore (ext w) = (Throw e, s1) ->
        enable env w = (Throw e, mkWorld s1 (trace w)))
  /\ (forall s1, loadedFrom (ext w) s1 ->
        (keyRing_status s1 = LOCKED ->
           forall r s2, approve_unlock env s1 = (r, s2) ->
             enable env w
             = (match r with
                | Ok _ => Ok (keyRing_status s2)
                | Throw e => Throw e
                end,
                mkWorld s2 (trace w ++ [WaitApprove "/unlock" "unlock" UnlockData])))
        /\ (keyRing_status s1 <> LOCKED ->
             enable env w = (Ok (keyRing_status s1), mkWorld s1 (trace w)))).
Proof.
  destruct w as [s t]. unfold enable, loadedFrom. simpl.
  split; [|split].
  - intros Hst. now run.
  - intros Hst e s1 Hre. now run.
  - intros s1 [[Hst Hre]|(Hnl & Hne & Heq)]; [|subst s1].
    + split.
      * intros Hl r s2 Hap. run. now destruct r.
      * intros Hl. run. destruct (keyRing_status s1) eqn:E; try congruence;
        repeat (progress (simpl; rewrite ?E)); congruence.
    + split.
      * intros Hl r s2 Hap. run. now destruct r.
      * intros Hl. run. destruct (keyRing_status s) eqn:E; try congruence;
        repeat (progress (simpl; rewrite ?E)); congruence.
Qed.

End Gate.

Ltac trace_norm :=
  simpl; rewrite <- ?app_assoc; simpl;
  rewrite ?drop_app_length, ?drop_all; simpl.

(** ** The Amino and Direct signing requests *)

Section Signing.
Context {S : Type} `{Collaborators S}.
Variables (env : Env) (msgOrigin chainId signer : string).
Variable signOptions : OWalletSignOptions.

(** The signing step and its [finally], as run once a request has been
    approved: the outcome of [requestSignAmino] from there on. *)
Lemma requestSignAmino_approved (signDoc newSignDoc : StdSignDoc) (w : World S)
    coinType key info s1 s2 s3 s4 :
  let prefix := bech32PrefixAccAddr info in
  let data := AminoSignData msgOrigin chainId signDoc signer signOptions true in
  let message := serializeSignDoc newSignDoc in
  getChainCoinType chainId (ext w) = (Ok coinType, s1) ->
  keyRing_getKey chainId coinType s1 = (Ok key, s2) ->
  getChainInfo chainId s2 = (Ok info, s3) ->
  toBech32 (address key) prefix = signer ->
  checkAndValidateADR36AminoSignDoc signDoc prefix = Ok true ->
  embeddedSigner signDoc = Ok (JStr signer) ->
  approve_amino env data s3 = (Ok newSignDoc, s4) ->
  requestSignAmino env msgOrigin chainId signer signDoc signOptions w
  = (match fst (keyRing_sign env chainId coinType message s4) with
     | Ok sig =>
         match encodeSecp256k1Signature (pubKey key) sig with
         | Ok enc => Ok {| amino_signed := newSignDoc; amino_signature := enc |}
         | Throw e => Throw e
         end
     | Throw e => Throw e
     end,
     mkWorld (snd (keyRing_sign env chainId coinType message s4))
       (trace w ++ [WaitApprove "/sign" "request-sign" data;
                    KeyRingSign chainId coinType message;
                    DispatchEvent APP_PORT "request-sign-end" []])).
Proof.
  intros prefix data message H1 H2 H3 Hsigner Hadr Hemb Happ.
  destruct w as [s t]. subst prefix data message.
  unfold requestSignAmino. run.
  rewrite ?String.eqb_refl, ?andb_false_r. replay.
  rewrite ?String.eqb_refl. simpl.
  destruct (keyRing_sign env chainId coinType (serializeSignDoc newSignDoc) s4)
    as [[sig|e] s5]; simpl; rewrite <- ?app_assoc; simpl; [|reflexivity].
  destruct (encodeSecp256k1Signature (pubKey key) sig); simpl;
    now rewrite <- ?app_assoc.
Qed.

(** C2. A signer that differs from the address derived from the active
    key fails [requestSignAmino] and [requestSignDirect] with the signer
    mismatch error, and nothing is logged: [waitApprove] is not invoked. *)
Theorem signer_mismatch_before_approval (aminoDoc : StdSignDoc) (directDoc : SignDoc)
    (w : World S) coinType key info s1 s2 s3 :
  getChainCoinType chainId (ext w) = (Ok coinType, s1) ->
  keyRing_getKey chainId coinType s1 = (Ok key, s2) ->
  getChainInfo chainId s2 = (Ok info, s3) ->
  signer <> toBech32 (address key) (bech32PrefixAccAddr info) ->
  requestSignAmino env msgOrigin chainId signer aminoDoc signOptions w
    = (Throw (Error "Signer mismatched"), mkWorld s3 (trace w))
  /\ requestSignDirect env msgOrigin chainId signer directDoc signOptions w
    = (Throw (Error "Signer mismatched"), mkWorld s3 (trace w)).
Proof.
  intros H1 H2 H3 Hne. apply eqb_string_false in Hne.
  destruct w as [s t]. unfold requestSignAmino, requestSignDirect.
  split; now run.
Qed.

(** C1 (the code at the failing input). When the original sign doc is
    ADR-36 and passes the checks, the post-approval validation reads the
    original doc again: a returned payload that is not ADR-36 is not
    refused, it is serialized, signed and returned. *)
Theorem requestSignAmino_signs_reclassified_payload
    (signDoc newSignDoc : StdSignDoc) (w : World S)
    coinType key info s1 s2 s3 s4 sig s5 enc :
  let prefix := bech32PrefixAccAddr info in
  let data := AminoSignData msgOrigin chainId signDoc signer signOptions true in
  let message := serializeSignDoc newSignDoc in
  getChainCoinType chainId (ext w) = (Ok coinType, s1) ->
  keyRing_getKey chainId coinType s1 = (Ok key, s2) ->
  getChainInfo chainId s2 = (Ok info, s3) ->
  toBech32 (address key) prefix = signer ->
  checkAndValidateADR36AminoSignDoc signDoc prefix = Ok true ->
  embeddedSigner signDoc = Ok (JStr signer) ->
  approve_amino env data s3 = (Ok newSignDoc, s4) ->
  checkAndValidateADR36AminoSignDoc newSignDoc prefix = Ok false ->
  keyRing_sign env chainId coinType message s4 = (Ok sig, s5) ->
  encodeSecp256k1Signature (pubKey key) sig = Ok enc ->
  requestSignAmino env msgOrigin chainId signer signDoc signOptions w
  = (Ok {| amino_signed := newSignDoc; amino_signature := enc |},
     mkWorld s5
       (trace w ++ [WaitApprove "/sign" "request-sign" data;
                    KeyRingSign chainId coinType message;
                    DispatchEvent APP_PORT "request-sign-end" []])).
Proof.
  intros prefix data message H1 H2 H3 Hsigner Hadr Hemb Happ _ Hsign Henc.
  rewrite (requestSignAmino_approved signDoc newSignDoc w coinType key info
             s1 s2 s3 s4 H1 H2 H3 Hsigner Hadr Hemb Happ).
  subst prefix data message. rewrite Hsign. simpl. now rewrite Henc.
Qed.

(** The pre-approval half of the embedded-signer check: an ADR-36 sign
    doc whose embedded signer is not the asserted one is refused before
    any approval. *)
Lemma requestSignAmino_unmatched_signer_before_approval
    (signDoc : StdSignDoc) (w : World S) coinType key info s1 s2 s3 v :
  let prefix := bech32PrefixAccAddr info in
  getChainCoinType chainId (ext w) = (Ok coinType, s1) ->
  keyRing_getKey chainId coinType s1 = (Ok key, s2) ->
  getChainInfo chainId s2 = (Ok info, s3) ->
  toBech32 (address key) prefix = signer ->
  checkAndValidateADR36AminoSignDoc signDoc prefix = Ok true ->
  embeddedSigner signDoc = Ok v ->
  v <> JStr signer ->
  requestSignAmino env msgOrigin chainId signer signDoc signOptions w
  = (Throw (OWalletError "keyring" 233 "Unmatched signer in sign doc"),
     mkWorld s3 (trace w)).
Proof.
  intros prefix H1 H2 H3 Hsigner Hadr Hemb Hne.
  destruct w as [s t]. subst prefix. unfold requestSignAmino. run.
  rewrite ?String.eqb_refl. replay.
  assert (JS.strict_ne_str v signer = true) as ->; [|reflexivity].
  destruct v; simpl; try reflexivity.
  apply negb_true_iff, String.eqb_neq. congruence.
Qed.

(** C3 (the code at the failing input). The post-approval signer check
    reads the original doc again: a returned ADR-36 payload whose embedded
    signer is not the asserted one is not refused, it is signed. *)
Theorem requestSignAmino_signs_payload_of_other_signer
    (signDoc newSignDoc : StdSignDoc) (w : World S)
    coinType key info s1 s2 s3 s4 v sig s5 enc :
  let prefix := bech32PrefixAccAddr info in
  let data := AminoSignData msgOrigin chainId signDoc signer signOptions true in
  let message := serializeSignDoc newSignDoc in
  getChainCoinType chainId (ext w) = (Ok coinType, s1) ->
  keyRing_getKey chainId coinType s1 = (Ok key, s2) ->
  getChainInfo chainId s2 = (Ok info, s3) ->
  toBech32 (address key) prefix = signer ->
  checkAndValidateADR36AminoSignDoc signDoc prefix = Ok true ->
  embeddedSigner signDoc = Ok (JStr signer) ->
  approve_amino env data s3 = (Ok newSignDoc, s4) ->
  checkAndValidateADR36AminoSignDoc newSignDoc prefix = Ok true ->
  embeddedSigner newSignDoc = Ok v ->
  JS.strict_ne_str v signer = true ->
  keyRing_sign env chainId coinType message s4 = (Ok sig, s5) ->
  encodeSecp256k1Signature (pubKey key) sig = Ok enc ->
  requestSignAmino env msgOrigin chainId signer signDoc signOptions w
  = (Ok {| amino_signed := newSignDoc; amino_signature := enc |},
     mkWorld s5
       (trace w ++ [WaitApprove "/sign" "request-sign" data;
                    KeyRingSign chainId coinType message;
                    DispatchEvent APP_PORT "request-sign-end" []])).
Proof.
  intros prefix data message H1 H2 H3 Hsigner Hadr Hemb Happ _ _ _ Hsign Henc.
  rewrite (requestSignAmino_approved signDoc newSignDoc w coinType key info
             s1 s2 s3 s4 H1 H2 H3 Hsigner Hadr Hemb Happ).
  subst prefix data message. rewrite Hsign. simpl. now rewrite Henc.
Qed.

End Signing.

(** ** The completion notification *)

(** Split on the outcome of the next collaborator call or test. *)
Ltac branch :=
  match goal with
  | |- context [match ?x with _ => _ end] =>
      lazymatch x with
      | context [match _ with _ => _ end] => fail
      | _ => destruct x eqn:?
      end
  end.

Ltac all_paths :=
  repeat (simpl; branch);
  unfold endsWhenSigning, endsOnce; trace_norm; try reflexivity.

Section Completion.
Context {S : Type} `{Collaborators S}.
Variables (env : Env) (msgOrigin chainId signer : string).
Variable signOptions : OWalletSignOptions.

Lemma requestSignAmino_ends (signDoc : StdSignDoc) (w : World S) :
  endsWhenSigning
    (emitted (requestSignAmino env msgOrigin chainId signer signDoc signOptions) w).
Proof.
  destruct w as [s t]. unfold emitted, requestSignAmino. unfold_run. all_paths.
Qed.

Lemma requestSignDirect_ends (signDoc : SignDoc) (w : World S) :
  endsWhenSigning
    (emitted (requestSignDirect env msgOrigin chainId signer signDoc signOptions) w).
Proof.
  destruct w as [s t]. unfold emitted, requestSignDirect. unfold_run. all_paths.
Qed.

Lemma requestSignEthereum_ends (data : JSObject) (w : World S) :
  endsWhenSigning (emitted (requestSignEthereum env chainId data) w).
Proof.
  destruct w as [s t].
  unfold emitted, requestSignEthereum, estimateFeeAndWaitApprove. unfold_run.
  all_paths.
Qed.

Lemma requestSignEthereumTypedData_ends (data : SignEthereumTypedDataObject)
    (w : World S) :
  endsOnce (emitted (requestSignEthereumTypedData env chainId data) w).
Proof.
  destruct w as [s t]. unfold emitted, requestSignEthereumTypedData. unfold_run.
  all_paths.
Qed.

Lemma requestSignProxyDecryptionData_ends (data : JSObject) (w : World S) :
  endsOnce (emitted (requestSignProxyDecryptionData env chainId data) w).
Proof.
  destruct w as [s t].
  unfold emitted, requestSignProxyDecryptionData, estimateFeeAndWaitApprove.
  unfold_run. all_paths.
Qed.

Lemma requestSignProxyReEncryptionData_ends (data : JSObject) (w : World S) :
  endsOnce (emitted (requestSignProxyReEncryptionData env chainId data) w).
Proof.
  destruct w as [s t].
  unfold emitted, requestSignProxyReEncryptionData, estimateFeeAndWaitApprove.
  unfold_run. all_paths.
Qed.


End Completion.

(** ** Fee estimation *)

Lemma lookup_set_eq k v o : JS.lookup k (JS.set k v o) = v.
Proof.
  induction o as [|[k' v'] o IH]; simpl.
  - now rewrite String.eqb_refl.
  - destruct (String.eqb k k') eqn:E; simpl; now rewrite E.
Qed.

Lemma lookup_set_ne k k' v o :
  String.eqb k k' = false -> JS.lookup k (JS.set k' v o) = JS.lookup k o.
Proof.
  intros Hne. induction o as [|[k2 v2] o IH]; simpl.
  - now rewrite Hne.
  - destruct (String.eqb k' k2) eqn:E; simpl.
    + apply String.eqb_eq in E. subst k2. now rewrite Hne.
    + now rewrite IH.
Qed.

Lemma approvalHints_gasPrice data gp gl d :
  JS.lookup "estimatedGasPrice" (approvalHints data gp gl d)
  = JS.or (JS.lookup "gasPrice" data) gp.
Proof.
  unfold approvalHints, JS.extend. simpl.
  rewrite !lookup_set_ne by reflexivity. apply lookup_set_eq.
Qed.

Lemma approvalHints_gasLimit data gp gl d :
  JS.lookup "estimatedGasLimit" (approvalHints data gp gl d)
  = JS.or (JS.lookup "gas" data) gl.
Proof.
  unfold approvalHints, JS.extend. simpl.
  rewrite !lookup_set_ne by reflexivity. apply lookup_set_eq.
Qed.

Lemma mergeApproved_object data o :
  exists merged,
    mergeApproved data (JObj o) = Ok merged
    /\ JS.lookup "gasPrice" merged = JS.coalesce (JS.lookup "gasPrice" o) (JStr "0x0")
    /\ JS.lookup "memo" merged = JS.coalesce (JS.lookup "memo" o) (JStr "").
Proof.
  unfold mergeApproved. simpl. eexists. split; [reflexivity|].
  unfold JS.extend. simpl. split.
  - rewrite !lookup_set_ne by reflexivity. apply lookup_set_eq.
  - rewrite !lookup_set_ne by reflexivity. apply lookup_set_eq.
Qed.

Section FeeEstimation.
Context {S : Type} `{Collaborators S}.
Variables (env : Env) (chainId rpc : string) (data : JSObject).

(** A run of [estimateFeeAndWaitApprove] once the chain lookup and the gas
    price query have answered: whatever the gas estimate does, the approval
    step is entered and decides the outcome. *)
Lemma estimateFeeAndWaitApprove_run (w : World S) info decimals gasPrice s1 s2 :
  getChainInfo chainId (ext w) = (Ok info, s1) ->
  feeDecimals info = Ok decimals ->
  request rpc "eth_gasPrice" [] s1 = (Ok gasPrice, s2) ->
  let estimate := request rpc "eth_estimateGas" (estimateGasParams data) s2 in
  let limit := match fst estimate with Ok v => v | Throw _ => defaultGasLimit end in
  let shown :=
    EthereumSignData chainId (approvalHints data gasPrice limit decimals) in
  let approval := approve_ethereum env shown (snd estimate) in
  estimateFeeAndWaitApprove env chainId rpc data w
  = (match fst approval with
     | Ok approveData => mergeApproved data approveData
     | Throw e => Throw e
     end,
     mkWorld (snd approval)
       (trace w ++ [WaitApprove "/sign" "request-sign-ethereum" shown])).
Proof.
  intros H1 H2 H3 estimate limit shown approval.
  subst approval shown limit estimate.
  destruct w as [s t]. unfold estimateFeeAndWaitApprove. run.
  destruct (request rpc "eth_estimateGas" _ s2) as [[v|e] s3]; simpl;
    match goal with
    | |- context [approve_ethereum ?e ?d ?s] =>
        destruct (approve_ethereum e d s) as [[a|e'] s4]
    end; reflexivity.
Qed.

(** C6. When the [eth_estimateGas] query throws, the default limit
    ["0x5028"] stands in for the estimate, the approval step is entered,
    and the outcome of the call is the outcome of the approval: the
    estimation error is not propagated. *)
Theorem estimateGas_failure_is_recovered (w : World S)
    info decimals gasPrice e s1 s2 s3 :
  getChainInfo chainId (ext w) = (Ok info, s1) ->
  feeDecimals info = Ok decimals ->
  request rpc "eth_gasPrice" [] s1 = (Ok gasPrice, s2) ->
  request rpc "eth_estimateGas" (estimateGasParams data) s2 = (Throw e, s3) ->
  let hints := approvalHints data gasPrice (JStr "0x5028") decimals in
  let shown := EthereumSignData chainId hints in
  let approval := approve_ethereum env shown s3 in
  emitted (estimateFeeAndWaitApprove env chainId rpc data) w
    = [WaitApprove "/sign" "request-sign-ethereum" shown]
  /\ JS.lookup "estimatedGasLimit" hints
     = JS.or (JS.lookup "gas" data) (JStr "0x5028")
  /\ fst (estimateFeeAndWaitApprove env chainId rpc data w)
     = match fst approval with
       | Ok approveData => mergeApproved data approveData
       | Throw e' => Throw e'
       end
  /\ (forall o, fst approval = Ok (JObj o) ->
        is_ok (fst (estimateFeeAndWaitApprove env chainId rpc data w)) = true).
Proof.
  intros H1 H2 H3 H4 hints shown approval. subst approval shown hints.
  pose proof (estimateFeeAndWaitApprove_run w info decimals gasPrice s1 s2
                H1 H2 H3) as Hrun.
  simpl in Hrun. rewrite H4 in Hrun. simpl in Hrun.
  unfold defaultGasLimit in Hrun.
  repeat apply conj.
  - eapply emitted_eq. exact Hrun.
  - apply approvalHints_gasLimit.
  - now rewrite Hrun.
  - intros o Ho. rewrite Hrun. simpl. rewrite Ho.
    destruct (mergeApproved_object data o) as (merged & -> & _). reflexivity.
Qed.

(** C7 (amended). The hints shown to the approval step are the caller's
    [gasPrice] and [gas] when these are truthy, and otherwise the gas
    price answered by the RPC and the gas limit (the RPC's estimate, or
    the default when the estimate failed); in the object returned after
    an approval, a [gasPrice] left [undefined] or [null] by the response
    is ["0x0"] and a [memo] left so is the empty string. *)
Theorem estimateFee_hints_and_defaults (w : World S) info decimals gasPrice s1 s2 :
  getChainInfo chainId (ext w) = (Ok info, s1) ->
  feeDecimals info = Ok decimals ->
  request rpc "eth_gasPrice" [] s1 = (Ok gasPrice, s2) ->
  let estimate := request rpc "eth_estimateGas" (estimateGasParams data) s2 in
  let limit := match fst estimate with Ok v => v | Throw _ => JStr "0x5028" end in
  exists hints,
    emitted (estimateFeeAndWaitApprove env chainId rpc data) w
      = [WaitApprove "/sign" "request-sign-ethereum" (EthereumSignData chainId hints)]
    /\ JS.lookup "estimatedGasPrice" hints
       = (if JS.truthy (JS.lookup "gasPrice" data)
          then JS.lookup "gasPrice" data else gasPrice)
    /\ JS.lookup "estimatedGasLimit" hints
       = (if JS.truthy (JS.lookup "gas" data)
          then JS.lookup "gas" data else limit)
    /\ (forall o,
          fst (approve_ethereum env (EthereumSignData chainId hints) (snd estimate))
            = Ok (JObj o) ->
          exists merged,
            fst (estimateFeeAndWaitApprove env chainId rpc data w) = Ok merged
            /\ JS.lookup "gasPrice" merged
               = (if JS.nullish (JS.lookup "gasPrice" o)
                  then JStr "0x0" else JS.lookup "gasPrice" o)
            /\ JS.lookup "memo" merged
               = (if JS.nullish (JS.lookup "memo" o)
                  then JStr "" else JS.lookup "memo" o)).
Proof.
  intros H1 H2 H3 estimate limit. subst limit estimate.
  pose proof (estimateFeeAndWaitApprove_run w info decimals gasPrice s1 s2
                H1 H2 H3) as Hrun.
  simpl in Hrun. unfold defaultGasLimit in Hrun.
  eexists.
  repeat apply conj.
  - eapply emitted_eq. exact Hrun.
  - apply approvalHints_gasPrice.
  - apply approvalHints_gasLimit.
  - intros o Ho. rewrite Hrun. simpl. rewrite Ho.
    destruct (mergeApproved_object data o) as (merged & Hm & Hg & Hmemo).
    exists merged. repeat apply conj; assumption.
Qed.

End FeeEstimation.

(** ** Coin type selection and off-chain message verification *)

Section CoinTypeAndVerification.
Context {S : Type} `{Collaborators S}.

(** C8 (amended). [setKeyStoreCoinType] notifies by comparing the coin
    type computed before the update with the requested one, once the key
    ring's update has resolved: no keystore-changed event when they are
    equal; when they differ, one such event (and nothing else) if the
    update resolves, and none if it rejects, in which case the call
    rejects with the key ring's error. *)
Theorem setKeyStoreCoinType_notifies_on_change (chainId : string) (coinType : Z)
    (w : World S) defaultCoinType prevCoinType s1 s2 :
  getChainCoinType chainId (ext w) = (Ok defaultCoinType, s1) ->
  keyRing_computeKeyStoreCoinType chainId defaultCoinType s1 = (Ok prevCoinType, s2) ->
  (prevCoinType = coinType ->
     countEvents isKeystoreChanged (emitted (setKeyStoreCoinType chainId coinType) w) = 0)
  /\ (prevCoinType <> coinType ->
      forall s3, keyRing_setKeyStoreCoinType chainId coinType s2 = (Ok tt, s3) ->
        emitted (setKeyStoreCoinType chainId coinType) w
          = [DispatchEvent WEBPAGE_PORT "keystore-changed" []]
        /\ countEvents isKeystoreChanged
             (emitted (setKeyStoreCoinType chainId coinType) w) = 1)
  /\ (prevCoinType <> coinType ->
      forall e s3, keyRing_setKeyStoreCoinType chainId coinType s2 = (Throw e, s3) ->
        fst (setKeyStoreCoinType chainId coinType w) = Throw e
        /\ emitted (setKeyStoreCoinType chainId coinType) w = []).
Proof.
  intros H1 H2. destruct w as [s t]. repeat apply conj.
  - intros ->. unfold emitted, setKeyStoreCoinType. run.
    destruct (keyRing_setKeyStoreCoinType chainId coinType s2) as [[[]|e] s3];
      simpl; rewrite ?Z.eqb_refl; simpl; now rewrite drop_all.
  - intros Hne s3 H3. apply Z.eqb_neq in Hne.
    assert (emitted (setKeyStoreCoinType chainId coinType) (mkWorld s t)
            = [DispatchEvent WEBPAGE_PORT "keystore-changed" []]) as ->.
    { unfold emitted, setKeyStoreCoinType. run. now rewrite drop_app_length. }
    split; reflexivity.
  - intros Hne e s3 H3. unfold emitted, setKeyStoreCoinType. run.
    split; [reflexivity|]. now rewrite drop_all.
Qed.

(** C9 (amended). [verifyADR36AminoSignDoc] checks, in this order, the
    signer against the address derived from the active key, the type of
    the supplied public key, and the supplied public key against the
    base64 text of the active key's; each failed check throws an [Error]
    naming the mismatch, and only when all three pass is the outcome the
    cryptographic verification of the signature over the envelope built
    from the signer and the message. *)
Theorem verifyADR36AminoSignDoc_checks (chainId signer : string) (data : list byte)
    (sig : StdSignature) (w : World S) coinType key info s1 s2 s3 :
  getChainCoinType chainId (ext w) = (Ok coinType, s1) ->
  keyRing_getKey chainId coinType s1 = (Ok key, s2) ->
  getChainInfo chainId s2 = (Ok info, s3) ->
  let prefix := bech32PrefixAccAddr info in
  let signerOk := signer = toBech32 (address key) prefix in
  let typeOk := pk_type (pub_key sig) = "tendermint/PubKeySecp256k1" in
  let keyOk := toBase64 (pubKey key) = pk_value (pub_key sig) in
  let outcome := fst (verifyADR36AminoSignDoc chainId signer data sig w) in
  (~ signerOk -> outcome = Throw (Error "Signer mismatched"))
  /\ (signerOk -> ~ typeOk ->
      outcome = Throw (Error ("Unsupported type of pub key: " ++ pk_type (pub_key sig))))
  /\ (signerOk -> typeOk -> ~ keyOk -> outcome = Throw (Error "Pub key unmatched"))
  /\ (signerOk -> typeOk -> keyOk ->
      outcome = lib_verifyADR36AminoSignDoc prefix
                  (makeADR36AminoSignDoc signer data)
                  (fromBase64 (pk_value (pub_key sig)))
                  (fromBase64 (signature sig))).
Proof.
  intros H1 H2 H3 prefix signerOk typeOk keyOk outcome.
  subst outcome keyOk typeOk signerOk prefix.
  destruct w as [s t]. unfold verifyADR36AminoSignDoc, pubKeyTypeSecp256k1.
  repeat apply conj.
  - intros Hs. apply eqb_string_false in Hs. now run.
  - intros Hs Ht. apply String.eqb_eq in Hs. apply eqb_string_false in Ht.
    now run.
  - intros Hs Ht Hk. apply String.eqb_eq in Hs, Ht. apply eqb_string_false in Hk.
    now run.
  - intros Hs Ht Hk. apply String.eqb_eq in Hs, Ht, Hk. now run.
Qed.

End CoinTypeAndVerification.

(** ** The theorems at the sample requests *)

Import Sample.

(** A stranger's address is asserted while the sample key is active. *)
Lemma signer_mismatch_before_approval_witness :
  requestSignAmino env0 dapp cosmoshub stranger helloDoc noOptions (start unlocked)
    = (Throw (Error "Signer mismatched"), start unlocked)
  /\ requestSignDirect env0 dapp cosmoshub stranger directDoc noOptions (start unlocked)
    = (Throw (Error "Signer mismatched"), start unlocked).
Proof.
  apply (signer_mismatch_before_approval env0 dapp cosmoshub stranger noOptions
           helloDoc directDoc (start unlocked) 118%Z (keyFor 118) cosmosInfo
           unlocked unlocked unlocked).
  - reflexivity.
  - reflexivity.
  - reflexivity.
  - apply String.eqb_neq. reflexivity.
Defined.

(** An off-chain message is presented; the approval answers with a
    transfer, which is signed. *)
Lemma requestSignAmino_signs_reclassified_payload_witness :
  checkAndValidateADR36AminoSignDoc helloDoc "cosmos" = Ok true
  /\ checkAndValidateADR36AminoSignDoc sendDoc "cosmos" = Ok false
  /\ requestSignAmino env0 dapp cosmoshub me helloDoc noOptions
         (start (withAmino (Returns sendDoc) unlocked))
       = (Ok {| amino_signed := sendDoc; amino_signature := signatureOf sendDoc |},
          mkWorld (withAmino (Returns sendDoc) unlocked)
            [WaitApprove "/sign" "request-sign"
               (AminoSignData dapp cosmoshub helloDoc me noOptions true);
             KeyRingSign cosmoshub 118 (serialize sendDoc);
             DispatchEvent APP_PORT "request-sign-end" []]).
Proof.
  split; [reflexivity|]. split; [reflexivity|].
  eapply eq_trans.
  - eapply (requestSignAmino_signs_reclassified_payload env0 dapp cosmoshub me
              noOptions helloDoc sendDoc
              (start (withAmino (Returns sendDoc) unlocked)));
      reflexivity.
  - reflexivity.
Defined.

(** An off-chain message is presented; the approval answers with an
    off-chain message of another signer, which is signed. *)
Lemma requestSignAmino_signs_payload_of_other_signer_witness :
  embeddedSigner forgedDoc = Ok (JStr attacker)
  /\ requestSignAmino env0 dapp cosmoshub me helloDoc noOptions
         (start (withAmino (Returns forgedDoc) unlocked))
       = (Ok {| amino_signed := forgedDoc; amino_signature := signatureOf forgedDoc |},
          mkWorld (withAmino (Returns forgedDoc) unlocked)
            [WaitApprove "/sign" "request-sign"
               (AminoSignData dapp cosmoshub helloDoc me noOptions true);
             KeyRingSign cosmoshub 118 (serialize forgedDoc);
             DispatchEvent APP_PORT "request-sign-end" []]).
Proof.
  split; [reflexivity|].
  eapply eq_trans.
  - eapply (requestSignAmino_signs_payload_of_other_signer env0 dapp cosmoshub me
              noOptions helloDoc forgedDoc
              (start (withAmino (Returns forgedDoc) unlocked)));
      reflexivity.
  - reflexivity.
Defined.

(** An empty key ring, a key ring not yet loaded whose unlock page is
    closed without unlocking, and an unlocked key ring. *)
Lemma enable_gate_witness :
  enable env0 (start (withStatus EMPTY unlocked))
    = (Throw noKeyRing, start (withStatus EMPTY unlocked))
  /\ enable env0 (start (withStatus NOTLOADED unlocked))
     = (Ok LOCKED,
        mkWorld (withStatus LOCKED unlocked) [WaitApprove "/unlock" "unlock" UnlockData])
  /\ enable env0 (start unlocked) = (Ok UNLOCKED, start unlocked).
Proof.
  split; [|split].
  - destruct (enable_gate env0 (start (withStatus EMPTY unlocked))) as (Hempty & _).
    apply Hempty. reflexivity.
  - destruct (enable_gate env0 (start (withStatus NOTLOADED unlocked)))
      as (_ & _ & Hgate).
    destruct (Hgate (withStatus LOCKED unlocked)) as [Hlocked _].
    { left. split; reflexivity. }
    apply (Hlocked eq_refl (Ok tt) (withStatus LOCKED unlocked)). reflexivity.
  - destruct (enable_gate env0 (start unlocked)) as (_ & _ & Hgate).
    destruct (Hgate unlocked) as [_ Hopen].
    { right. repeat split; discriminate. }
    apply Hopen. discriminate.
Defined.

(** The gas estimate fails and the user approves. *)
Lemma estimateGas_failure_is_recovered_witness :
  emitted (estimateFeeAndWaitApprove env0 ethereum ethereumRpc draftTx) estimateFails
    = [WaitApprove "/sign" "request-sign-ethereum"
         (EthereumSignData ethereum
            (draftTx ++ [("estimatedGasPrice", JStr "0x3b9aca00");
                         ("estimatedGasLimit", JStr "0x5028");
                         ("decimals", JNum 18)]))]
  /\ is_ok (fst (estimateFeeAndWaitApprove env0 ethereum ethereumRpc draftTx
                   estimateFails)) = true.
Proof.
  destruct (estimateGas_failure_is_recovered (H := collaborators)
              env0 ethereum ethereumRpc draftTx estimateFails
              ethereumInfo (JNum 18) (JStr "0x3b9aca00")
              (Rejected "execution reverted")
              (ext estimateFails) (ext estimateFails) (ext estimateFails)
              eq_refl eq_refl eq_refl eq_refl)
    as (Hshown & _ & _ & Hok).
  split.
  - exact Hshown.
  - apply (Hok []). reflexivity.
Defined.

(** The caller's own gas fields are shown; the response sets neither
    [gasPrice] nor [memo]. *)
Lemma estimateFee_hints_and_defaults_witness :
  exists hints merged,
    emitted (estimateFeeAndWaitApprove env0 ethereum ethereumRpc pricedTx) limitOnly
      = [WaitApprove "/sign" "request-sign-ethereum" (EthereumSignData ethereum hints)]
    /\ JS.lookup "estimatedGasPrice" hints = JStr "0x4a817c800"
    /\ JS.lookup "estimatedGasLimit" hints = JStr "0x7530"
    /\ fst (estimateFeeAndWaitApprove env0 ethereum ethereumRpc pricedTx limitOnly)
       = Ok merged
    /\ JS.lookup "gasPrice" merged = JStr "0x0"
    /\ JS.lookup "memo" merged = JStr "".
Proof.
  destruct (estimateFee_hints_and_defaults (H := collaborators)
              env0 ethereum ethereumRpc pricedTx limitOnly
              ethereumInfo (JNum 18) (JStr "0x3b9aca00")
              (ext limitOnly) (ext limitOnly) eq_refl eq_refl eq_refl)
    as (hints & Hshown & Hprice & Hlimit & Hmerge).
  destruct (Hmerge [("gasLimit", JStr "0x7530")]) as (merged & Hok & Hgp & Hmemo).
  { reflexivity. }
  exists hints, merged. repeat apply conj; assumption.
Defined.

(** The chain's default coin type is requested (no event), another one
    is requested (one event), that one is requested again (no event), and
    the strict key ring refuses a second choice (no event, the call
    rejects). *)
Lemma setKeyStoreCoinType_notifies_on_change_witness :
  countEvents isKeystoreChanged
    (emitted (setKeyStoreCoinType cosmoshub 118) (start unlocked)) = 0
  /\ emitted (setKeyStoreCoinType cosmoshub 60) (start unlocked)
     = [DispatchEvent WEBPAGE_PORT "keystore-changed" []]
  /\ countEvents isKeystoreChanged
       (emitted (setKeyStoreCoinType cosmoshub 60)
          (start (withCoinTypes (<[cosmoshub := 60%Z]> ∅) unlocked))) = 0
  /\ fst (setKeyStoreCoinType (H := SampleKeyStore.strict) cosmoshub 118
            (start SampleKeyStore.hubChosen))
     = Throw (Error "Coin type already set")
  /\ emitted (setKeyStoreCoinType (H := SampleKeyStore.strict) cosmoshub 118)
       (start SampleKeyStore.hubChosen) = [].
Proof.
  split; [|split; [|split]].
  - destruct (setKeyStoreCoinType_notifies_on_change (H := collaborators)
                cosmoshub 118 (start unlocked) 118%Z 118%Z unlocked unlocked
                eq_refl eq_refl) as [Hsame _].
    apply Hsame. reflexivity.
  - destruct (setKeyStoreCoinType_notifies_on_change (H := collaborators)
                cosmoshub 60 (start unlocked) 118%Z 118%Z unlocked unlocked
                eq_refl eq_refl) as (_ & Hchanged & _).
    apply (Hchanged ltac:(discriminate)
             (withCoinTypes (<[cosmoshub := 60%Z]> ∅) unlocked)).
    reflexivity.
  - destruct (setKeyStoreCoinType_notifies_on_change (H := collaborators)
                cosmoshub 60
                (start (withCoinTypes (<[cosmoshub := 60%Z]> ∅) unlocked))
                118%Z 60%Z
                (withCoinTypes (<[cosmoshub := 60%Z]> ∅) unlocked)
                (withCoinTypes (<[cosmoshub := 60%Z]> ∅) unlocked)
                ltac:(reflexivity) ltac:(reflexivity)) as [Hsame _].
    apply Hsame. reflexivity.
  - destruct (setKeyStoreCoinType_notifies_on_change
                (H := SampleKeyStore.strict) cosmoshub 118
                (start SampleKeyStore.hubChosen) 118%Z 60%Z
                SampleKeyStore.hubChosen SampleKeyStore.hubChosen
                ltac:(reflexivity) ltac:(reflexivity)) as (_ & _ & Hrefused).
    apply (Hrefused ltac:(discriminate) (Error "Coin type already set")
             SampleKeyStore.hubChosen).
    reflexivity.
Defined.

(** A stranger as signer, a key of another type, another key, the
    genuine signature, and the genuine signature against another message. *)
Lemma verifyADR36AminoSignDoc_checks_witness :
  fst (verifyADR36AminoSignDoc cosmoshub stranger hello helloSignature (start unlocked))
    = Throw (Error "Signer mismatched")
  /\ fst (verifyADR36AminoSignDoc cosmoshub me hello ed25519Signature (start unlocked))
     = Throw (Error "Unsupported type of pub key: tendermint/PubKeyEd25519")
  /\ fst (verifyADR36AminoSignDoc cosmoshub me hello otherKeySignature (start unlocked))
     = Throw (Error "Pub key unmatched")
  /\ fst (verifyADR36AminoSignDoc cosmoshub me hello helloSignature (start unlocked))
     = Ok true
  /\ fst (verifyADR36AminoSignDoc cosmoshub me (bytesOfString "hullo") helloSignature
            (start unlocked))
     = Ok false.
Proof.
  pose proof (fun signer data sig =>
                verifyADR36AminoSignDoc_checks (H := collaborators)
                  cosmoshub signer data sig (start unlocked)
                  118%Z (keyFor 118) cosmosInfo unlocked unlocked unlocked
                  eq_refl eq_refl eq_refl) as Hchecks.
  repeat apply conj.
  - destruct (Hchecks stranger hello helloSignature) as (Hsigner & _).
    apply Hsigner. apply String.eqb_neq. reflexivity.
  - destruct (Hchecks me hello ed25519Signature) as (_ & Htype & _).
    apply Htype; [reflexivity|]. apply String.eqb_neq. reflexivity.
  - destruct (Hchecks me hello otherKeySignature) as (_ & _ & Hkey & _).
    apply Hkey; [reflexivity|reflexivity|]. apply String.eqb_neq. reflexivity.
  - destruct (Hchecks me hello helloSignature) as (_ & _ & _ & Hverify).
    eapply eq_trans; [apply Hverify; reflexivity|reflexivity].
  - destruct (Hchecks me (bytesOfString "hullo") helloSignature)
      as (_ & _ & _ & Hverify).
    eapply eq_trans; [apply Hverify; reflexivity|reflexivity].
Defined.

(** ** Where the specification and the code part *)


(** C7 (as stated, refuted). A draft whose [gas] is [0] and whose
    [gasPrice] is the empty string has both fields, yet the hints shown
    are the RPC's answers, not the caller's values. *)
Lemma falsy_caller_fields_lose_to_estimates :
  exists hints,
    emitted (estimateFeeAndWaitApprove env0 ethereum ethereumRpc zeroGasTx)
      estimateAnswers
      = [WaitApprove "/sign" "request-sign-ethereum" (EthereumSignData ethereum hints)]
    /\ JS.has "gasPrice" zeroGasTx = true
    /\ JS.has "gas" zeroGasTx = true
    /\ JS.lookup "estimatedGasPrice" hints <> JS.lookup "gasPrice" zeroGasTx
    /\ JS.lookup "estimatedGasLimit" hints <> JS.lookup "gas" zeroGasTx
    /\ JS.lookup "estimatedGasPrice" hints = JStr "0x3b9aca00"
    /\ JS.lookup "estimatedGasLimit" hints = JStr "0x5208".
Proof.
  eexists. split; [vm_compute; reflexivity|].
  repeat apply conj; vm_compute; (reflexivity || discriminate).
Qed.

(** C8 (as stated, refuted). On a key ring that refuses to change a coin
    type once it is set, a request for 118 where 60 was computed dispatches
    no keystore-changed event, although the two values differ. *)
Lemma setKeyStoreCoinType_differing_value_unnotified :
  keyRing_computeKeyStoreCoinType (Collaborators := SampleKeyStore.strict)
    cosmoshub 118 SampleKeyStore.hubChosen
    = (Ok 60%Z, SampleKeyStore.hubChosen)
  /\ 60%Z <> 118%Z
  /\ countEvents isKeystoreChanged
       (emitted (setKeyStoreCoinType (H := SampleKeyStore.strict) cosmoshub 118)
          (start SampleKeyStore.hubChosen)) <> 1.
Proof.
  repeat apply conj; [reflexivity|discriminate|vm_compute; discriminate].
Qed.

(** C9 (as stated, refuted). A signer that is not the active key's
    address is not reported as a failed verification: the call throws. *)
Lemma verifyADR36AminoSignDoc_mismatch_throws :
  fst (verifyADR36AminoSignDoc cosmoshub stranger hello helloSignature
         (start unlocked))
    = Throw (Error "Signer mismatched")
  /\ fst (verifyADR36AminoSignDoc cosmoshub stranger hello helloSignature
            (start unlocked))
     <> Ok false.
Proof.
  repeat apply conj; vm_compute; (reflexivity || discriminate).
Qed.

(** ** Further properties of the signing requests *)

Ltac shape_paths :=
  repeat (simpl; branch);
  unfold signingProtocol; trace_norm;
  first [ left; split; reflexivity
        | right; left; eexists; split; reflexivity
        | right; right; eexists _, _; split; reflexivity ].

Section SigningProtocol.
Context {S : Type} `{Collaborators S}.
Variables (env : Env) (msgOrigin chainId signer : string).

(** X1. The [isADR36WithString] option on a sign doc that is not ADR-36
    is refused with error 236 before any approval. *)
Theorem requestSignAmino_option_needs_adr36 (signDoc : StdSignDoc)
    (signOptions : OWalletSignOptions) (w : World S)
    coinType key info s1 s2 s3 :
  getChainCoinType chainId (ext w) = (Ok coinType, s1) ->
  keyRing_getKey chainId coinType s1 = (Ok key, s2) ->
  getChainInfo chainId s2 = (Ok info, s3) ->
  toBech32 (address key) (bech32PrefixAccAddr info) = signer ->
  checkAndValidateADR36AminoSignDoc signDoc (bech32PrefixAccAddr info) = Ok false ->
  is_Some (isADR36WithString signOptions) ->
  requestSignAmino env msgOrigin chainId signer signDoc signOptions w
  = (Throw (OWalletError "keyring" 236 msgInvalidOption), mkWorld s3 (trace w)).
Proof.
  intros H1 H2 H3 Hsigner Hadr Hopt.
  destruct w as [s t]. unfold requestSignAmino. run.
  rewrite ?String.eqb_refl. replay.
  rewrite bool_decide_eq_true_2 by assumption. reflexivity.
Qed.

(** X2. For a sign doc that is not ADR-36, nothing is validated after the
    approval: the doc returned by the approval is the one serialized,
    signed and returned, whatever it is. *)
Theorem requestSignAmino_ordinary_doc (signDoc newSignDoc : StdSignDoc)
    (signOptions : OWalletSignOptions) (w : World S)
    coinType key info s1 s2 s3 s4 :
  let data := AminoSignData msgOrigin chainId signDoc signer signOptions false in
  let message := serializeSignDoc newSignDoc in
  getChainCoinType chainId (ext w) = (Ok coinType, s1) ->
  keyRing_getKey chainId coinType s1 = (Ok key, s2) ->
  getChainInfo chainId s2 = (Ok info, s3) ->
  toBech32 (address key) (bech32PrefixAccAddr info) = signer ->
  checkAndValidateADR36AminoSignDoc signDoc (bech32PrefixAccAddr info) = Ok false ->
  isADR36WithString signOptions = None ->
  approve_amino env data s3 = (Ok newSignDoc, s4) ->
  requestSignAmino env msgOrigin chainId signer signDoc signOptions w
  = (match fst (keyRing_sign env chainId coinType message s4) with
     | Ok sig =>
         match encodeSecp256k1Signature (pubKey key) sig with
         | Ok enc => Ok {| amino_signed := newSignDoc; amino_signature := enc |}
         | Throw e => Throw e
         end
     | Throw e => Throw e
     end,
     mkWorld (snd (keyRing_sign env chainId coinType message s4))
       (trace w ++ [WaitApprove "/sign" "request-sign" data;
                    KeyRingSign chainId coinType message;
                    DispatchEvent APP_PORT "request-sign-end" []])).
Proof.
  intros data message H1 H2 H3 Hsigner Hadr Hopt Happ.
  destruct w as [s t]. subst data message.
  unfold requestSignAmino. run.
  rewrite ?String.eqb_refl. replay.
  destruct (keyRing_sign env chainId coinType (serializeSignDoc newSignDoc) s4)
    as [[sig|e] s5]; simpl; rewrite <- ?app_assoc; simpl; [|reflexivity].
  destruct (encodeSecp256k1Signature (pubKey key) sig); simpl;
    now rewrite <- ?app_assoc.
Qed.


(** X4. When the bytes returned by the approval do not decode,
    [requestSignDirect] fails with the decoder's error: nothing is signed
    and no completion event is dispatched. *)
Theorem requestSignDirect_undecodable_reply (signDoc : SignDoc)
    (signOptions : OWalletSignOptions) (w : World S)
    coinType key info s1 s2 s3 newSignDocBytes s4 e :
  let data :=
    DirectSignData msgOrigin chainId (encodeSignDoc signDoc) signer signOptions in
  getChainCoinType chainId (ext w) = (Ok coinType, s1) ->
  keyRing_getKey chainId coinType s1 = (Ok key, s2) ->
  getChainInfo chainId s2 = (Ok info, s3) ->
  toBech32 (address key) (bech32PrefixAccAddr info) = signer ->
  approve_direct env data s3 = (Ok newSignDocBytes, s4) ->
  decodeSignDoc newSignDocBytes = Throw e ->
  requestSignDirect env msgOrigin chainId signer signDoc signOptions w
  = (Throw e, mkWorld s4 (trace w ++ [WaitApprove "/sign" "request-sign" data])).
Proof.
  intros data H1 H2 H3 Hsigner Happ Hdec.
  destruct w as [s t]. subst data. unfold requestSignDirect. run.
  rewrite ?String.eqb_refl. now replay.
Qed.

(** X5. Once the approved bytes decode, [requestSignDirect] asks the key
    ring to sign them and dispatches the completion event whatever
    happens. It resolves to the decoded doc with its signature when
    signing and encoding succeed; an error thrown by either is only
    logged and the call resolves to [undefined]; when the thrown value is
    [undefined] or [null], the logging itself throws a [TypeError], which
    the call rejects with. *)
Theorem requestSignDirect_after_decoding (signDoc : SignDoc)
    (signOptions : OWalletSignOptions) (w : World S)
    coinType key info s1 s2 s3 newSignDocBytes s4 newSignDoc :
  let data :=
    DirectSignData msgOrigin chainId (encodeSignDoc signDoc) signer signOptions in
  let message := makeSignBytes newSignDoc in
  getChainCoinType chainId (ext w) = (Ok coinType, s1) ->
  keyRing_getKey chainId coinType s1 = (Ok key, s2) ->
  getChainInfo chainId s2 = (Ok info, s3) ->
  toBech32 (address key) (bech32PrefixAccAddr info) = signer ->
  approve_direct env data s3 = (Ok newSignDocBytes, s4) ->
  decodeSignDoc newSignDocBytes = Ok newSignDoc ->
  requestSignDirect env msgOrigin chainId signer signDoc signOptions w
  = (resolved
       (match fst (keyRing_sign env chainId coinType message s4) with
        | Ok sig =>
            match encodeSecp256k1Signature (pubKey key) sig with
            | Ok enc =>
                Ok {| direct_signed := newSignDoc; direct_signature := enc |}
            | Throw e => Throw e
            end
        | Throw e => Throw e
        end),
     mkWorld (snd (keyRing_sign env chainId coinType message s4))
       (trace w ++ [WaitApprove "/sign" "request-sign" data;
                    KeyRingSign chainId coinType message;
                    DispatchEvent APP_PORT "request-sign-end" []])).
Proof.
  intros data message H1 H2 H3 Hsigner Happ Hdec.
  destruct w as [s t]. subst data message. unfold requestSignDirect. run.
  rewrite ?String.eqb_refl. replay.
  destruct (keyRing_sign env chainId coinType (makeSignBytes newSignDoc) s4)
    as [[sig|e] s5]; simpl.
  - destruct (encodeSecp256k1Signature (pubKey key) sig) as [enc|e]; simpl;
      [now rewrite <- ?app_assoc|].
    destruct (caught e); simpl; now rewrite <- ?app_assoc.
  - destruct (caught e); simpl; now rewrite <- ?app_assoc.
Qed.

(** X6. [requestSignEthereumTypedData] and [requestPublicKey] ask for no
    approval: the key ring is called at once and the completion event is
    the only event of the call. An error of the key ring is only logged
    and the call resolves to [undefined]; a rejection with [undefined] or
    [null] makes the logging throw, and the call rejects with that
    [TypeError]. *)
Theorem typed_data_and_public_key_skip_approval
    (typed : SignEthereumTypedDataObject) (w : World S) :
  let signed :=
    keyRing_signEthereumTypedData (typedMessage typed) (version typed) chainId
      (defaultCoinType typed) (ext w) in
  let pub := keyRing_getPublicKey chainId (ext w) in
  requestSignEthereumTypedData env chainId typed w
    = (resolved (fst signed),
       mkWorld (snd signed)
         (trace w ++ [DispatchEvent APP_PORT "request-sign-end" []]))
  /\ requestPublicKey env chainId w
     = (resolved (fst pub),
        mkWorld (snd pub)
          (trace w ++ [DispatchEvent APP_PORT "request-sign-ethereum-end" []])).
Proof.
  intros signed pub. subst signed pub. destruct w as [s t]. split.
  - unfold requestSignEthereumTypedData. unfold_run. simpl.
    destruct (keyRing_signEthereumTypedData _ _ _ _ s) as [[sig|e] s1]; simpl;
      [reflexivity|].
    now destruct (caught e).
  - unfold requestPublicKey. unfold_run. simpl.
    destruct (keyRing_getPublicKey chainId s) as [[k|e] s1]; simpl;
      [reflexivity|].
    now destruct (caught e).
Qed.

(** X7. The two proxy requests run the chain lookup, the fee estimation
    with its approval, and the key ring's transform of the object the
    estimation returns, all inside their [try]: the first failure ends
    the [try], is only logged, and the call resolves to [undefined]
    (or rejects with the logging's [TypeError] when the thrown value is
    [undefined] or [null]); the outcome of the transform is otherwise the
    call's. The completion event is dispatched last in every case. *)
Theorem proxy_requests_transform_the_merged_object (data : JSObject) (w : World S) :
  let looked := getChainInfo chainId (ext w) in
  let finished (r : Result (option JSValue)) (s : S) (t : list Event) :=
    (r, mkWorld s (t ++ [DispatchEvent APP_PORT "request-sign-ethereum-end" []])) in
  (forall e, fst looked = Throw e ->
     requestSignProxyDecryptionData env chainId data w
       = finished (caught e) (snd looked) (trace w)
     /\ requestSignProxyReEncryptionData env chainId data w
        = finished (caught e) (snd looked) (trace w))
  /\ (forall info, fst looked = Ok info ->
      let estimated :=
        estimateFeeAndWaitApprove env chainId (rest info) data
          (mkWorld (snd looked) (trace w)) in
      (forall e, fst estimated = Throw e ->
         requestSignProxyDecryptionData env chainId data w
           = finished (caught e) (ext (snd estimated)) (trace (snd estimated))
         /\ requestSignProxyReEncryptionData env chainId data w
            = finished (caught e) (ext (snd estimated)) (trace (snd estimated)))
      /\ (forall newData, fst estimated = Ok newData ->
          let decrypted :=
            keyRing_signProxyDecryptionData chainId newData (ext (snd estimated)) in
          let reEncrypted :=
            keyRing_signProxyReEncryptionData chainId newData
              (ext (snd estimated)) in
          requestSignProxyDecryptionData env chainId data w
            = finished (resolved (fst decrypted)) (snd decrypted)
                (trace (snd estimated))
          /\ requestSignProxyReEncryptionData env chainId data w
             = finished (resolved (fst reEncrypted)) (snd reEncrypted)
                 (trace (snd estimated)))).
Proof.
  intros looked finished. subst looked finished. destruct w as [s t]. simpl.
  unfold requestSignProxyDecryptionData, requestSignProxyReEncryptionData.
  unfold_run. simpl.
  destruct (getChainInfo chainId s) as [[info|e0] s1]; simpl; split.
  - intros e He. discriminate.
  - intros info' Hinfo. injection Hinfo as <-.
    destruct (estimateFeeAndWaitApprove env chainId (rest info) data
                (mkWorld s1 t)) as [[newData|e1] [s2 t2]]; simpl; split.
    + intros e He. discriminate.
    + intros newData' Hnew. injection Hnew as <-. split.
      * destruct (keyRing_signProxyDecryptionData chainId newData s2)
          as [[v|e] s3]; simpl; [reflexivity|].
        now destruct (caught e).
      * destruct (keyRing_signProxyReEncryptionData chainId newData s2)
          as [[v|e] s3]; simpl; [reflexivity|].
        now destruct (caught e).
    + intros e He. injection He as <-.
      split; now destruct (caught e1).
    + intros newData Hnew. discriminate.
  - intros e He. injection He as <-.
    split; now destruct (caught e0).
  - intros info Hinfo. discriminate.
Qed.

End SigningProtocol.

(** ** Further properties of the fee estimation *)

Lemma lookup_app k (l o : JSObject) :
  JS.lookup k (l ++ o) = if JS.has k l then JS.lookup k l else JS.lookup k o.
Proof.
  induction l as [|[k' v] l IH]; simpl; [reflexivity|].
  destruct (String.eqb k k'); simpl; [reflexivity|exact IH].
Qed.

Lemma lookup_set k k' v o :
  JS.lookup k (JS.set k' v o) = JS.lookup k ((k', v) :: o).
Proof.
  simpl. destruct (String.eqb k k') eqn:E.
  - apply String.eqb_eq in E. subst k'. apply lookup_set_eq.
  - now apply lookup_set_ne.
Qed.

(** An object spread followed by properties reads like the properties,
    last one first, in front of the spread object. *)
Lemma lookup_extend k (kvs o : JSObject) :
  JS.lookup k (JS.extend o kvs) = JS.lookup k (rev kvs ++ o).
Proof.
  unfold JS.extend. revert o.
  induction kvs as [|[k' v] kvs IH]; intros o; simpl; [reflexivity|].
  rewrite IH, <- app_assoc, !lookup_app. simpl.
  destruct (JS.has k (rev kvs)); [reflexivity|].
  rewrite lookup_set. simpl. now destruct (String.eqb k k').
Qed.

Section FeeEstimationEdges.
Context {S : Type} `{Collaborators S}.
Variables (env : Env) (chainId rpc : string) (data : JSObject).

(** X8. Unlike the gas estimate, the gas price query is not guarded: when
    it throws, [estimateFeeAndWaitApprove] fails with its error and the
    approval step is never entered. *)
Theorem gasPrice_failure_is_fatal (w : World S) info decimals e s1 s2 :
  getChainInfo chainId (ext w) = (Ok info, s1) ->
  feeDecimals info = Ok decimals ->
  request rpc "eth_gasPrice" [] s1 = (Throw e, s2) ->
  estimateFeeAndWaitApprove env chainId rpc data w = (Throw e, mkWorld s2 (trace w)).
Proof.
  intros H1 H2 H3. destruct w as [s t]. unfold estimateFeeAndWaitApprove. now run.
Qed.

(** X9. On a chain whose list of fee currencies is empty, reading the
    decimals of the first one throws a [TypeError]: the call fails before
    any RPC query and before the approval. A chain without the list goes
    on with [undefined] decimals. *)
Theorem empty_fee_currencies_throw (w : World S) info s1 :
  getChainInfo chainId (ext w) = (Ok info, s1) ->
  (feeCurrencies info = Some [] ->
     exists msg,
       estimateFeeAndWaitApprove env chainId rpc data w
       = (Throw (TypeError msg), mkWorld s1 (trace w)))
  /\ (feeCurrencies info = None -> feeDecimals info = Ok JUndefined).
Proof.
  intros H1. split.
  - intros Hfee. eexists. destruct w as [s t].
    unfold estimateFeeAndWaitApprove, feeDecimals. run. reflexivity.
  - intros Hfee. unfold feeDecimals. now rewrite Hfee.
Qed.

(** X10. An approval that resolves to [null] or [undefined] makes
    [estimateFeeAndWaitApprove] throw a [TypeError] when it reads the
    response, after the approval has been given. *)
Theorem nullish_approval_throws (w : World S) info decimals gasPrice s1 s2 :
  getChainInfo chainId (ext w) = (Ok info, s1) ->
  feeDecimals info = Ok decimals ->
  request rpc "eth_gasPrice" [] s1 = (Ok gasPrice, s2) ->
  let estimate := request rpc "eth_estimateGas" (estimateGasParams data) s2 in
  let limit := match fst estimate with Ok v => v | Throw _ => defaultGasLimit end in
  let shown :=
    EthereumSignData chainId (approvalHints data gasPrice limit decimals) in
  forall approveData,
    fst (approve_ethereum env shown (snd estimate)) = Ok approveData ->
    JS.nullish approveData = true ->
    exists msg,
      fst (estimateFeeAndWaitApprove env chainId rpc data w) = Throw (TypeError msg)
      /\ emitted (estimateFeeAndWaitApprove env chainId rpc data) w
         = [WaitApprove "/sign" "request-sign-ethereum" shown].
Proof.
  intros H1 H2 H3 estimate limit shown approveData Happ Hnull.
  subst shown limit estimate.
  pose proof (estimateFeeAndWaitApprove_run env chainId rpc data w info decimals
                gasPrice s1 s2 H1 H2 H3) as Hrun.
  simpl in Hrun. rewrite Happ in Hrun.
  destruct approveData; try discriminate; simpl in Hrun;
    (eexists; split; [now rewrite Hrun | eapply emitted_eq; exact Hrun]).
Qed.

(** X11. Both object spreads keep the draft: every field of [data] other
    than the three hints is shown unchanged to the approval step next to
    the decimals, and every field other than [gasPrice], [gasLimit],
    [memo] and [fees] is returned unchanged; [gasLimit] and [fees] are
    the response's, without a default, so the caller's own [gasPrice] and
    [gasLimit] never reach the result. *)
Theorem spreads_keep_the_draft (estimatedGasPrice estimatedGasLimit decimals : JSValue)
    (o : JSObject) :
  let hints := approvalHints data estimatedGasPrice estimatedGasLimit decimals in
  JS.lookup "decimals" hints = decimals
  /\ (forall k, k <> "estimatedGasPrice" -> k <> "estimatedGasLimit" ->
        k <> "decimals" -> JS.lookup k hints = JS.lookup k data)
  /\ exists merged,
       mergeApproved data (JObj o) = Ok merged
       /\ JS.lookup "gasLimit" merged = JS.lookup "gasLimit" o
       /\ JS.lookup "fees" merged = JS.lookup "fees" o
       /\ (forall k, k <> "gasPrice" -> k <> "gasLimit" -> k <> "memo" ->
             k <> "fees" -> JS.lookup k merged = JS.lookup k data).
Proof.
  intros hints. subst hints. repeat apply conj.
  - unfold approvalHints. now rewrite lookup_extend.
  - intros k H1 H2 H3. unfold approvalHints. rewrite lookup_extend. simpl.
    now rewrite !eqb_string_false by assumption.
  - eexists. split; [reflexivity|]. repeat apply conj.
    + now rewrite lookup_extend.
    + now rewrite lookup_extend.
    + intros k H1 H2 H3 H4. rewrite lookup_extend. simpl.
      now rewrite !eqb_string_false by assumption.
Qed.

(** X12. [requestSignEthereum] hands the key ring exactly the object
    returned by [estimateFeeAndWaitApprove], with the chain's coin type
    and RPC endpoint, and its outcome is the key ring's; when the fee
    estimation fails, so does the request, without a completion event. *)
Theorem requestSignEthereum_signs_the_merged_object (w : World S)
    coinType info s1 s2 :
  getChainCoinType chainId (ext w) = (Ok coinType, s1) ->
  getChainInfo chainId s1 = (Ok info, s2) ->
  let estimated :=
    estimateFeeAndWaitApprove env chainId (rest info) data (mkWorld s2 (trace w)) in
  (forall e, fst estimated = Throw e ->
     requestSignEthereum env chainId data w = (Throw e, snd estimated))
  /\ (forall newData, fst estimated = Ok newData ->
        let signed :=
          keyRing_signAndBroadcastEthereum chainId coinType (rest info) newData
            (ext (snd estimated)) in
        requestSignEthereum env chainId data w
        = (fst signed,
           mkWorld (snd signed)
             (trace (snd estimated)
              ++ [KeyRingSignEthereum chainId coinType (rest info) newData;
                  DispatchEvent APP_PORT "request-sign-ethereum-end" []]))).
Proof.
  intros H1 H2 estimated. destruct w as [s t]. simpl in *. split.
  - intros e He. unfold requestSignEthereum. unfold_run. simpl.
    rewrite H1. simpl. rewrite H2. simpl. fold estimated.
    destruct estimated as [r w']. simpl in He. now subst r.
  - intros newData Hnew. cbv zeta.
    unfold requestSignEthereum. unfold_run. simpl.
    rewrite H1. simpl. rewrite H2. simpl. fold estimated.
    destruct estimated as [r w']. simpl in *. subst r.
    destruct (keyRing_signAndBroadcastEthereum chainId coinType (rest info)
                newData (ext w')) as [r5 s5]; simpl.
    now rewrite <- app_assoc.
Qed.

End FeeEstimationEdges.

(** ** The key-store methods *)

Section KeyStoreMethods.
Context {S : Type} `{Collaborators S} `{KeyStoreCollaborators S}.

(** X13. [deleteKeyRing] notifies the webpage exactly when the key ring
    reports that the active key store changed; a deletion that the key
    ring refuses fails with the key ring's error and notifies nobody. The
    status returned is the one after the deletion. *)
Theorem deleteKeyRing_notifies_when_changed (index : Z) (password : string)
    (w : World S) :
  (forall result s1,
     keyRing_deleteKeyRing index password (ext w) = (Ok result, s1) ->
     deleteKeyRing index password w
     = (Ok {| resp_multiKeyStoreInfo := del_multiKeyStoreInfo result;
              resp_status := keyRing_status s1 |},
        mkWorld s1
          (trace w ++ if del_keyStoreChanged result
                      then [DispatchEvent WEBPAGE_PORT "keystore-changed" []]
                      else [])))
  /\ (forall e s1,
        keyRing_deleteKeyRing index password (ext w) = (Throw e, s1) ->
        deleteKeyRing index password w = (Throw e, mkWorld s1 (trace w))).
Proof.
  destruct w as [s t]. split.
  - intros result s1 Hdel. unfold deleteKeyRing, try_finally_on. run.
    destruct (del_keyStoreChanged result); simpl;
      now rewrite ?app_nil_r.
  - intros e s1 Hdel. unfold deleteKeyRing, try_finally_on. now run.
Qed.

(** X14. Once the coin type of the chain is set,
    [getKeyStoreBIP44Selectables] offers nothing: it returns the empty
    list without looking the chain up or deriving any key. *)
Theorem selectables_empty_once_set (chainId : string) (paths : list BIP44)
    (w : World S) s1 :
  keyRing_isKeyStoreCoinTypeSet chainId (ext w) = (Ok true, s1) ->
  getKeyStoreBIP44Selectables chainId paths w = (Ok [], mkWorld s1 (trace w)).
Proof.
  intros Hset. destruct w as [s t]. unfold getKeyStoreBIP44Selectables. now run.
Qed.

Lemma selectablesLoop_shape (bech32Prefix : string) (paths : list BIP44) :
  forall (result : list Selectable) (w : World S) l w',
    selectablesLoop bech32Prefix paths result w = (Ok l, w') ->
    exists added,
      l = (result ++ added)%list
      /\ map sel_path added = paths
      /\ Forall (fun sel =>
                   exists key,
                     sel_bech32Address sel = toBech32 (address key) bech32Prefix)
           added
      /\ trace w' = trace w.
Proof.
  induction paths as [|path paths IH]; intros result w l w' Hrun.
  - simpl in Hrun. injection Hrun as <- <-. exists [].
    rewrite app_nil_r. repeat split. constructor.
  - simpl in Hrun. unfold_run.
    destruct (keyRing_getKeyFromCoinType (bip44_coinType path) (ext w))
      as [[key|e] s1] eqn:Hkey; simpl in Hrun; [|discriminate].
    apply IH in Hrun. destruct Hrun as (added & -> & Hpaths & Haddr & Htrace).
    eexists (_ :: added). rewrite <- app_assoc. simpl.
    repeat split; [now rewrite Hpaths| |exact Htrace].
    constructor; [now exists key|exact Haddr].
Qed.

(** X15. While the coin type is not set, a successful
    [getKeyStoreBIP44Selectables] returns one entry per candidate path, in
    the order given, each with an address encoded under the chain's
    prefix; the call dispatches nothing. *)
Theorem selectables_follow_the_paths (chainId : string) (paths : list BIP44)
    (w : World S) s1 info s2 l w' :
  keyRing_isKeyStoreCoinTypeSet chainId (ext w) = (Ok false, s1) ->
  getChainInfo chainId s1 = (Ok info, s2) ->
  getKeyStoreBIP44Selectables chainId paths w = (Ok l, w') ->
  map sel_path l = paths
  /\ Forall (fun sel =>
               exists key,
                 sel_bech32Address sel
                 = toBech32 (address key) (bech32PrefixAccAddr info)) l
  /\ trace w' = trace w.
Proof.
  intros Hset Hinfo Hrun. destruct w as [s t].
  unfold getKeyStoreBIP44Selectables in Hrun. unfold_run. simpl in *.
  rewrite Hset in Hrun. simpl in Hrun. rewrite Hinfo in Hrun. simpl in Hrun.
  apply selectablesLoop_shape in Hrun.
  destruct Hrun as (added & -> & Hpaths & Haddr & Htrace). simpl.
  repeat split; assumption.
Qed.

(** X16. When the key ring refuses the update, [setKeyStoreCoinType]
    fails with the key ring's error and dispatches nothing, also when the
    requested coin type differs from the one computed before. *)
Theorem setKeyStoreCoinType_failure_is_silent (chainId : string) (coinType : Z)
    (w : World S) defaultCoinType prevCoinType s1 s2 e s3 :
  getChainCoinType chainId (ext w) = (Ok defaultCoinType, s1) ->
  keyRing_computeKeyStoreCoinType chainId defaultCoinType s1 = (Ok prevCoinType, s2) ->
  keyRing_setKeyStoreCoinType chainId coinType s2 = (Throw e, s3) ->
  setKeyStoreCoinType chainId coinType w = (Throw e, mkWorld s3 (trace w)).
Proof.
  intros H1 H2 H3. destruct w as [s t]. unfold setKeyStoreCoinType. now run.
Qed.

(** X17. When its three checks pass, [verifyADR36AminoSignDoc] verifies
    against the active key: if the base64 text of the key's public key
    decodes back to it, the verifier receives exactly the key ring's
    public-key bytes. The call dispatches nothing. *)
Theorem verifyADR36AminoSignDoc_uses_the_active_key (chainId signer : string)
    (data : list byte) (sig : StdSignature) (w : World S)
    coinType key info s1 s2 s3 :
  getChainCoinType chainId (ext w) = (Ok coinType, s1) ->
  keyRing_getKey chainId coinType s1 = (Ok key, s2) ->
  getChainInfo chainId s2 = (Ok info, s3) ->
  toBech32 (address key) (bech32PrefixAccAddr info) = signer ->
  pk_type (pub_key sig) = "tendermint/PubKeySecp256k1" ->
  toBase64 (pubKey key) = pk_value (pub_key sig) ->
  fromBase64 (toBase64 (pubKey key)) = pubKey key ->
  verifyADR36AminoSignDoc chainId signer data sig w
  = (lib_verifyADR36AminoSignDoc (bech32PrefixAccAddr info)
       (makeADR36AminoSignDoc signer data) (pubKey key)
       (fromBase64 (signature sig)),
     mkWorld s3 (trace w)).
Proof.
  intros H1 H2 H3 Hsigner Htype Hkey Hround.
  destruct w as [s t]. unfold verifyADR36AminoSignDoc, pubKeyTypeSecp256k1.
  run. rewrite ?String.eqb_refl. simpl.
  now rewrite <- Hkey, Hround.
Qed.

End KeyStoreMethods.

(** ** The further properties at the sample requests *)

Import SampleKeyStore.

(** A transfer is presented with the string option. *)
Lemma requestSignAmino_option_needs_adr36_witness :
  requestSignAmino env0 dapp cosmoshub me sendDoc stringOption (start unlocked)
  = (Throw (OWalletError "keyring" 236 msgInvalidOption), start unlocked).
Proof.
  eapply eq_trans.
  - eapply (requestSignAmino_option_needs_adr36 (H := collaborators)
              env0 dapp cosmoshub me sendDoc stringOption (start unlocked));
      first [reflexivity | eexists; reflexivity].
  - reflexivity.
Defined.

(** A transfer is presented and returned with a memo. *)
Lemma requestSignAmino_ordinary_doc_witness :
  requestSignAmino env0 dapp cosmoshub me sendDoc noOptions
    (start (withAmino (Returns sendDocWithMemo) unlocked))
  = (Ok {| amino_signed := sendDocWithMemo;
           amino_signature := signatureOf sendDocWithMemo |},
     mkWorld (withAmino (Returns sendDocWithMemo) unlocked)
       [WaitApprove "/sign" "request-sign"
          (AminoSignData dapp cosmoshub sendDoc me noOptions false);
        KeyRingSign cosmoshub 118 (serialize sendDocWithMemo);
        DispatchEvent APP_PORT "request-sign-end" []]).
Proof.
  eapply eq_trans.
  - eapply (requestSignAmino_ordinary_doc (H := collaborators)
              env0 dapp cosmoshub me sendDoc sendDocWithMemo noOptions
              (start (withAmino (Returns sendDocWithMemo) unlocked)));
      reflexivity.
  - reflexivity.
Defined.

(** The approval answers with bytes that do not decode. *)
Lemma requestSignDirect_undecodable_reply_witness :
  requestSignDirect (H := strict) env0 dapp cosmoshub me directDoc noOptions
    (start (withDirect (Returns garbled) unlocked))
  = (Throw (Error "invalid wire type"),
     mkWorld (withDirect (Returns garbled) unlocked)
       [WaitApprove "/sign" "request-sign"
          (DirectSignData dapp cosmoshub (encodeDoc directDoc) me noOptions)]).
Proof.
  eapply eq_trans.
  - eapply (requestSignDirect_undecodable_reply (H := strict)
              env0 dapp cosmoshub me directDoc noOptions
              (start (withDirect (Returns garbled) unlocked)));
      reflexivity.
  - reflexivity.
Defined.

(** The approval returns the bytes unchanged; then empty bytes, which
    the strict key ring refuses to sign; then the zero byte, on which it
    rejects without a reason. *)
Lemma requestSignDirect_after_decoding_witness :
  fst (requestSignDirect env0 dapp cosmoshub me directDoc noOptions
         (start (withDirect (Returns (encodeDoc directDoc)) unlocked)))
    = Ok (Some {| direct_signed := decodedDirectDoc;
                  direct_signature := directSignatureOf decodedDirectDoc |})
  /\ requestSignDirect (H := strict) env0 dapp cosmoshub me directDoc noOptions
       (start (withDirect (Returns []) unlocked))
     = (Ok None,
        mkWorld (withDirect (Returns []) unlocked)
          [WaitApprove "/sign" "request-sign"
             (DirectSignData dapp cosmoshub (encodeDoc directDoc) me noOptions);
           KeyRingSign cosmoshub 118 [];
           DispatchEvent APP_PORT "request-sign-end" []])
  /\ requestSignDirect (H := strict) env0 dapp cosmoshub me directDoc noOptions
       (start (withDirect (Returns zeroByte) unlocked))
     = (Throw readOfUndefined,
        mkWorld (withDirect (Returns zeroByte) unlocked)
          [WaitApprove "/sign" "request-sign"
             (DirectSignData dapp cosmoshub (encodeDoc directDoc) me noOptions);
           KeyRingSign cosmoshub 118 zeroByte;
           DispatchEvent APP_PORT "request-sign-end" []]).
Proof.
  repeat apply conj.
  - eapply eq_trans.
    + eapply (f_equal fst).
      eapply (requestSignDirect_after_decoding (H := collaborators)
                env0 dapp cosmoshub me directDoc noOptions
                (start (withDirect (Returns (encodeDoc directDoc)) unlocked)));
        reflexivity.
    + reflexivity.
  - eapply eq_trans.
    + eapply (requestSignDirect_after_decoding (H := strict)
                env0 dapp cosmoshub me directDoc noOptions
                (start (withDirect (Returns []) unlocked)));
        reflexivity.
    + reflexivity.
  - eapply eq_trans.
    + eapply (requestSignDirect_after_decoding (H := strict)
                env0 dapp cosmoshub me directDoc noOptions
                (start (withDirect (Returns zeroByte) unlocked)));
        reflexivity.
    + reflexivity.
Defined.

(** An unknown chain, a rejected approval, a transform that succeeds, and
    the strict key ring, whose re-encryption rejects with [null]. *)
Lemma proxy_requests_transform_the_merged_object_witness :
  fst (requestSignProxyDecryptionData env0 "unknown-1" draftTx estimateAnswers)
    = Ok None
  /\ requestSignProxyDecryptionData env0 ethereum pricedTx
       (start (withEthereum Rejects false unlocked))
     = (Ok None,
        mkWorld (withEthereum Rejects false unlocked)
          [WaitApprove "/sign" "request-sign-ethereum"
             (EthereumSignData ethereum
                (approvalHints pricedTx (JStr "0x3b9aca00") (JStr "0x5208")
                   (JNum 18)));
           DispatchEvent APP_PORT "request-sign-ethereum-end" []])
  /\ (exists merged,
        mergeApproved pricedTx (JObj [("gasLimit", JStr "0x7530")]) = Ok merged
        /\ fst (requestSignProxyDecryptionData env0 ethereum pricedTx limitOnly)
           = Ok (Some (JObj merged)))
  /\ fst (requestSignProxyReEncryptionData (H := strict) env0 ethereum pricedTx
            limitOnly)
     = Throw readOfNull.
Proof.
  repeat apply conj.
  - destruct (proxy_requests_transform_the_merged_object (H := collaborators)
                env0 "unknown-1" draftTx estimateAnswers) as [Hunknown _].
    eapply eq_trans.
    + eapply (f_equal fst). eapply (proj1 (Hunknown _ ltac:(reflexivity))).
    + reflexivity.
  - destruct (proxy_requests_transform_the_merged_object (H := collaborators)
                env0 ethereum pricedTx
                (start (withEthereum Rejects false unlocked))) as [_ Hknown].
    destruct (Hknown ethereumInfo ltac:(reflexivity)) as [Hfailed _].
    eapply eq_trans.
    + eapply (proj1 (Hfailed _ ltac:(reflexivity))).
    + reflexivity.
  - eexists. split; [reflexivity|].
    destruct (proxy_requests_transform_the_merged_object (H := collaborators)
                env0 ethereum pricedTx limitOnly) as [_ Hknown].
    destruct (Hknown ethereumInfo ltac:(reflexivity)) as [_ Hdone].
    eapply eq_trans.
    + eapply (f_equal fst). eapply (proj1 (Hdone _ ltac:(reflexivity))).
    + reflexivity.
  - destruct (proxy_requests_transform_the_merged_object (H := strict)
                env0 ethereum pricedTx limitOnly) as [_ Hknown].
    destruct (Hknown ethereumInfo ltac:(reflexivity)) as [_ Hdone].
    eapply eq_trans.
    + eapply (f_equal fst). eapply (proj2 (Hdone _ ltac:(reflexivity))).
    + reflexivity.
Defined.

(** The strict key ring, locked, rejects typed data without a reason: the
    request rejects with the [TypeError] of its own logging, after the
    completion event. *)
Lemma typed_data_and_public_key_skip_approval_witness :
  requestSignEthereumTypedData (H := strict) env0 ethereum typedRequest
    (start lockedRing)
  = (Throw readOfUndefined,
     mkWorld lockedRing [DispatchEvent APP_PORT "request-sign-end" []]).
Proof.
  eapply eq_trans.
  - eapply (proj1 (typed_data_and_public_key_skip_approval (H := strict)
                     env0 ethereum typedRequest (start lockedRing))).
  - reflexivity.
Defined.

(** The RPC endpoint is down. *)
Lemma gasPrice_failure_is_fatal_witness :
  estimateFeeAndWaitApprove (H := strict) env0 ethereum downRpc draftTx
    estimateAnswers
  = (Throw (Rejected "Network request failed"), estimateAnswers).
Proof.
  eapply eq_trans.
  - eapply (gasPrice_failure_is_fatal (H := strict) env0 ethereum downRpc draftTx
              estimateAnswers);
      reflexivity.
  - reflexivity.
Defined.

(** The chain has an empty list of fee currencies. *)
Lemma empty_fee_currencies_throw_witness :
  is_ok (fst (estimateFeeAndWaitApprove (H := strict) env0 bare bareRpc draftTx
                estimateAnswers)) = false
  /\ emitted (estimateFeeAndWaitApprove (H := strict) env0 bare bareRpc draftTx)
       estimateAnswers = [].
Proof.
  destruct (empty_fee_currencies_throw (H := strict) env0 bare bareRpc draftTx
              estimateAnswers noFeeCurrency (ext estimateAnswers)
              ltac:(reflexivity)) as [Hempty _].
  destruct (Hempty ltac:(reflexivity)) as (msg & Hrun).
  split.
  - now rewrite Hrun.
  - eapply emitted_eq. rewrite Hrun. now rewrite app_nil_r.
Defined.

(** The approval resolves to [null]. *)
Lemma nullish_approval_throws_witness :
  is_ok (fst (estimateFeeAndWaitApprove env0 ethereum ethereumRpc draftTx
                answersNull)) = false
  /\ countEvents isWaitApprove
       (emitted (estimateFeeAndWaitApprove env0 ethereum ethereumRpc draftTx)
          answersNull) = 1.
Proof.
  destruct (nullish_approval_throws (H := collaborators)
              env0 ethereum ethereumRpc draftTx answersNull
              ethereumInfo (JNum 18) (JStr "0x3b9aca00")
              (ext answersNull) (ext answersNull)
              ltac:(reflexivity) ltac:(reflexivity) ltac:(reflexivity)
              JNull ltac:(reflexivity) ltac:(reflexivity))
    as (msg & Hthrow & Hshown).
  split.
  - now rewrite Hthrow.
  - now rewrite Hshown.
Defined.

(** The caller's recipient survives both spreads; the caller's gas limit
    does not reach the result. *)
Lemma spreads_keep_the_draft_witness :
  JS.lookup "to" (approvalHints pricedTx (JStr "0x1") (JStr "0x2") (JNum 18))
    = JStr "0xbbbb"
  /\ exists merged,
       mergeApproved pricedTx (JObj [("memo", JStr "hi")]) = Ok merged
       /\ JS.lookup "to" merged = JStr "0xbbbb"
       /\ JS.lookup "gas" merged = JStr "0x7530"
       /\ JS.lookup "gasLimit" merged = JUndefined.
Proof.
  destruct (spreads_keep_the_draft pricedTx (JStr "0x1") (JStr "0x2") (JNum 18)
              [("memo", JStr "hi")]) as (_ & Hhints & merged & Hm & Hlimit & _ & Hkeep).
  split.
  - eapply eq_trans; [apply Hhints; discriminate|reflexivity].
  - exists merged. repeat apply conj.
    + exact Hm.
    + eapply eq_trans; [apply Hkeep; discriminate|reflexivity].
    + eapply eq_trans; [apply Hkeep; discriminate|reflexivity].
    + eapply eq_trans; [exact Hlimit|reflexivity].
Defined.

(** The user sets a gas limit and the transaction is broadcast; the user
    rejects and nothing is signed. *)
Lemma requestSignEthereum_signs_the_merged_object_witness :
  fst (requestSignEthereum env0 ethereum pricedTx limitOnly) = Ok "0xfeed"
  /\ requestSignEthereum env0 ethereum pricedTx
       (start (withEthereum Rejects false unlocked))
     = (Throw (Rejected "Request rejected"),
        mkWorld (withEthereum Rejects false unlocked)
          [WaitApprove "/sign" "request-sign-ethereum"
             (EthereumSignData ethereum
                (approvalHints pricedTx (JStr "0x3b9aca00") (JStr "0x5208")
                   (JNum 18)))]).
Proof.
  split.
  - destruct (requestSignEthereum_signs_the_merged_object (H := collaborators)
                env0 ethereum pricedTx limitOnly 60%Z ethereumInfo
                (ext limitOnly) (ext limitOnly)
                ltac:(reflexivity) ltac:(reflexivity)) as [_ Hsigned].
    eapply eq_trans.
    + eapply (f_equal fst). eapply Hsigned. reflexivity.
    + reflexivity.
  - destruct (requestSignEthereum_signs_the_merged_object (H := collaborators)
                env0 ethereum pricedTx
                (start (withEthereum Rejects false unlocked)) 60%Z ethereumInfo
                (withEthereum Rejects false unlocked)
                (withEthereum Rejects false unlocked)
                ltac:(reflexivity) ltac:(reflexivity)) as [Hfailed _].
    eapply eq_trans.
    + eapply Hfailed. reflexivity.
    + reflexivity.
Defined.

(** The selected entry is deleted, another entry is deleted, and a wrong
    password is given. *)
Lemma deleteKeyRing_notifies_when_changed_witness :
  emitted (deleteKeyRing 0 password) (start unlocked)
    = [DispatchEvent WEBPAGE_PORT "keystore-changed" []]
  /\ emitted (deleteKeyRing 1 password) (start unlocked) = []
  /\ deleteKeyRing 0 "guess" (start unlocked)
     = (Throw (Error "Invalid password"), start unlocked).
Proof.
  repeat apply conj.
  - destruct (deleteKeyRing_notifies_when_changed (H := collaborators)
                (H0 := keyStoreCollaborators) 0 password (start unlocked))
      as [Hdone _].
    eapply emitted_eq. eapply eq_trans; [eapply Hdone; reflexivity|reflexivity].
  - destruct (deleteKeyRing_notifies_when_changed (H := collaborators)
                (H0 := keyStoreCollaborators) 1 password (start unlocked))
      as [Hdone _].
    eapply emitted_eq. eapply eq_trans; [eapply Hdone; reflexivity|reflexivity].
  - destruct (deleteKeyRing_notifies_when_changed (H := collaborators)
                (H0 := keyStoreCollaborators) 0 "guess" (start unlocked))
      as [_ Hrefused].
    eapply eq_trans; [eapply Hrefused; reflexivity|reflexivity].
Defined.

(** The coin type of the hub is chosen. *)
Lemma selectables_empty_once_set_witness :
  getKeyStoreBIP44Selectables cosmoshub candidates (start hubChosen)
  = (Ok [], start hubChosen).
Proof.
  eapply eq_trans.
  - eapply (selectables_empty_once_set (H := collaborators)
              (H0 := keyStoreCollaborators) cosmoshub candidates (start hubChosen)).
    reflexivity.
  - reflexivity.
Defined.

(** Three candidate paths on the hub. *)
Lemma selectables_follow_the_paths_witness :
  exists l,
    fst (getKeyStoreBIP44Selectables cosmoshub candidates (start unlocked)) = Ok l
    /\ map sel_path l = candidates
    /\ map sel_bech32Address l
       = ["cosmos16164647276"; "cosmos1616464723c"; "cosmos16164647211"].
Proof.
  eexists. split; [reflexivity|]. split.
  - eapply (selectables_follow_the_paths (H := collaborators)
              (H0 := keyStoreCollaborators) cosmoshub candidates (start unlocked)
              unlocked cosmosInfo unlocked);
      reflexivity.
  - reflexivity.
Defined.

(** The strict key ring refuses a second choice for the hub. *)
Lemma setKeyStoreCoinType_failure_is_silent_witness :
  setKeyStoreCoinType (H := strict) cosmoshub 118 (start hubChosen)
  = (Throw (Error "Coin type already set"), start hubChosen).
Proof.
  eapply eq_trans.
  - eapply (setKeyStoreCoinType_failure_is_silent (H := strict)
              cosmoshub 118 (start hubChosen));
      reflexivity.
  - reflexivity.
Defined.

(** The genuine signature over the [hello] message. *)
Lemma verifyADR36AminoSignDoc_uses_the_active_key_witness :
  verifyADR36AminoSignDoc cosmoshub me hello helloSignature (start unlocked)
  = (Ok true, start unlocked).
Proof.
  eapply eq_trans.
  - eapply (verifyADR36AminoSignDoc_uses_the_active_key (H := collaborators)
              cosmoshub me hello helloSignature (start unlocked));
      reflexivity.
  - reflexivity.
Defined.
